(** * Counterparty risk engine: field derivation, aggregation, classification

    A shallow embedding of [src/data_processor.py] (class [RepoDataProcessor])
    and [src/counterparty_analyzer.py] (class [CounterpartyRiskAnalyzer]),
    followed by the properties established about them.

    Numbers.  The program computes with pandas/numpy [float64] columns.  Here a
    finite value is an exact rational ([Qc]); the three special values that
    the program can produce without any rounding being involved are kept:
    [NaN] (a rating that the weight table does not map, [0/0]) and the two
    infinities ([x/0] with [x <> 0]: numpy division never raises).  Rounding
    and overflow of binary64 are not modelled: a sum of finite values is
    their exact sum, whatever the order of its terms.  Where the program adds
    the same numbers up in two different orders, and a property depends on
    the two results, the two sums are stated on binary64 values as well
    (module [Binary64]). *)

From Stdlib Require Import Floats.PrimFloat.
From Stdlib Require Import QArith Qcanon Sorted.
From stdpp Require Import gmap strings list fin_maps.

(** ** Numbers *)

Module Num.

Inductive num : Type :=
| Fin (q : Qc)
| PInf
| NInf
| NaN.

Definition qc (n : Z) (d : positive) : Qc := Q2Qc (n # d).

Definition qc_ltb (a b : Qc) : bool := negb (Qle_bool b a).
Definition qc_leb (a b : Qc) : bool := Qle_bool a b.
Definition qc_eqb (a b : Qc) : bool := Qeq_bool a b.

Definition of_nat (n : nat) : num := Fin (Q2Qc (inject_Z (Z.of_nat n))).

Definition is_nan (x : num) : bool :=
  match x with NaN => true | _ => false end.

(** Sign of a value, in { -1, 0, 1 }; [NaN] has none. *)
Definition sgn (x : num) : option Z :=
  match x with
  | Fin q => Some (if qc_ltb 0%Qc q then 1 else if qc_ltb q 0%Qc then -1 else 0)%Z
  | PInf => Some 1%Z
  | NInf => Some (-1)%Z
  | NaN => None
  end.

Definition inf_of_sign (s : Z) : num :=
  if (0 <? s)%Z then PInf else if (s <? 0)%Z then NInf else NaN.

Definition add (x y : num) : num :=
  match x, y with
  | NaN, _ | _, NaN => NaN
  | Fin a, Fin b => Fin (a + b)%Qc
  | PInf, NInf | NInf, PInf => NaN
  | PInf, _ | _, PInf => PInf
  | NInf, _ | _, NInf => NInf
  end.

Definition opp (x : num) : num :=
  match x with
  | Fin a => Fin (- a)%Qc
  | PInf => NInf
  | NInf => PInf
  | NaN => NaN
  end.

Definition sub (x y : num) : num := add x (opp y).

Definition mul (x y : num) : num :=
  match x, y with
  | Fin a, Fin b => Fin (a * b)%Qc
  | _, _ =>
      match sgn x, sgn y with
      | Some s, Some t => inf_of_sign (s * t)
      | _, _ => NaN
      end
  end.

(** numpy true division: a zero divisor gives an infinity of the sign of the
    dividend, and [0/0] gives [NaN]; nothing is raised. *)
Definition div (x y : num) : num :=
  match x, y with
  | NaN, _ | _, NaN => NaN
  | Fin a, Fin b =>
      if qc_eqb b 0%Qc
      then match sgn x with Some s => inf_of_sign s | None => NaN end
      else Fin (a / b)%Qc
  | Fin _, _ => Fin 0%Qc
  | _, Fin b =>
      match sgn x with
      | Some s => inf_of_sign (if qc_ltb b 0%Qc then - s else s)
      | None => NaN
      end
  | _, _ => NaN
  end.

(** Comparisons; every comparison with [NaN] is false. *)
Definition ltb (x y : num) : bool :=
  match x, y with
  | NaN, _ | _, NaN => false
  | Fin a, Fin b => qc_ltb a b
  | NInf, NInf => false
  | NInf, _ => true
  | _, PInf => match x with PInf => false | _ => true end
  | _, _ => false
  end.

Definition leb (x y : num) : bool :=
  match x, y with
  | NaN, _ | _, NaN => false
  | Fin a, Fin b => qc_leb a b
  | NInf, _ => true
  | _, PInf => true
  | _, _ => false
  end.

Definition gtb (x y : num) : bool := ltb y x.
Definition geb (x y : num) : bool := leb y x.

(** [x == y]; [NaN] equals nothing. *)
Definition eqb (x y : num) : bool :=
  match x, y with
  | Fin a, Fin b => qc_eqb a b
  | PInf, PInf | NInf, NInf => true
  | _, _ => false
  end.

(** [Series.clip(upper=u)]: values above [u] become [u]; [NaN] stays. *)
Definition clip_upper (u : num) (x : num) : num :=
  if gtb x u then u else x.

(** Python's built-in [min(x, y)]: [y] when [y < x], else [x]. *)
Definition py_min (x y : num) : num :=
  if ltb y x then y else x.

(** [Series.sum()] (skipna): [NaN] entries are skipped, the empty sum is 0. *)
Definition col_sum (c : list num) : num :=
  fold_left add (filter (fun x => is_nan x = false) c) (Fin 0%Qc).

(** [Series.mean()] (skipna): [NaN] when no entry is left. *)
Definition col_mean (c : list num) : num :=
  let live := filter (fun x => is_nan x = false) c in
  match live with
  | [] => NaN
  | _ => div (fold_left add live (Fin 0%Qc)) (of_nat (length live))
  end.

(** [Series.max()] (skipna): [NaN] when no entry is left. *)
Definition col_max (c : list num) : num :=
  match filter (fun x => is_nan x = false) c with
  | [] => NaN
  | x :: rest => fold_left (fun m y => if ltb m y then y else m) rest x
  end.

(** [(mask).sum()] for a boolean column. *)
Definition count_true (c : list bool) : nat :=
  length (filter (fun b => b = true) c).

(** [Series.any()] for a boolean column. *)
Definition col_any (c : list bool) : bool := existsb id c.

End Num.

Export Num.

Declare Scope num_scope.
Delimit Scope num_scope with num.
Bind Scope num_scope with num.
Coercion Fin : Qc >-> num.
Notation "a # b" := (Fin (Q2Qc (Qmake a%Z b%positive)))
  (at level 55, no associativity) : num_scope.
Infix "+" := Num.add : num_scope.
Infix "-" := Num.sub : num_scope.
Infix "*" := Num.mul : num_scope.
Infix "/" := Num.div : num_scope.
Infix "<?" := Num.ltb : num_scope.
Infix "<=?" := Num.leb : num_scope.
Infix ">?" := Num.gtb : num_scope.
Infix ">=?" := Num.geb : num_scope.
Infix "=?" := Num.eqb : num_scope.

Open Scope string_scope.
Open Scope list_scope.

(** ** Exceptions and results *)

Inductive exn : Type :=
| ValueError (msg : string)
| IndexError (msg : string)
| KeyError (key : string).

Inductive result (A : Type) : Type :=
| Ok (a : A)
| Raise (e : exn).
Arguments Ok {A} a.
Arguments Raise {A} e.

Definition bind {A B : Type} (r : result A) (k : A -> result B) : result B :=
  match r with
  | Ok a => k a
  | Raise e => Raise e
  end.

Notation "'try!' x ':=' r 'in' k" := (bind r (fun x => k))
  (at level 10, x name, r at level 100, k at level 200).

(** ** Data model *)

(** One input row, as the loader hands it over: text fields are strings,
    numeric fields are finite numbers (the cleaning stage has filled numeric
    nulls with 0).  The three flags are 0/1 numbers on which the code does
    arithmetic. *)
Record Trade : Type := {
  counterparty_type : string;
  counterparty_rating : string;
  currency : string;
  jurisdiction : string;
  term_type : string;
  collateral_hqla_level : string;
  notional_musd : Qc;
  haircut_pct : Qc;
  specialness_bp : Qc;
  collateral_liquidity_score : Qc;
  collateral_price_vol_20d_pct : Qc;
  collateral_duration_years : Qc;
  encumbrance_days : Qc;
  margin_call_mild_musd : Qc;
  margin_call_severe_musd : Qc;
  wrong_way_risk_flag : Qc;
  cross_ccy_flag : Qc;
  ccp_cleared_flag : Qc;
  days_to_maturity : Qc
}.

(** The configuration dictionary, flattened: one field per key the code
    reads.  A value of this type is a configuration in which all those keys
    are present, as in the YAML file the application loads. *)
Record Config : Type := {
  rating_weights : gmap string Qc;
  high_risk_rating_threshold : string;
  single_counterparty_limit_pct : Qc;
  max_haircut_pct : Qc;
  max_specialness_bp : Qc;
  max_encumbrance_days : Qc;
  max_mild_margin_call_musd : Qc;
  max_severe_margin_call_musd : Qc;
  max_term_days : Qc;
  mild_stress : Qc;
  severe_stress : Qc;
  weight_credit_risk : Qc;
  weight_market_risk : Qc;
  weight_liquidity_risk : Qc;
  weight_operational_risk : Qc;
  weight_term_risk : Qc;
  threshold_low_risk : Qc;
  threshold_medium_risk : Qc;
  threshold_high_risk : Qc;
  threshold_critical_risk : Qc
}.

Inductive RiskCategory : Type := Low | Medium | High | Critical.

Definition category_name (c : RiskCategory) : string :=
  match c with
  | Low => "Low"
  | Medium => "Medium"
  | High => "High"
  | Critical => "Critical"
  end.

(** Severity rank of a category. *)
Definition severity (c : RiskCategory) : nat :=
  match c with
  | Low => 0
  | Medium => 1
  | High => 2
  | Critical => 3
  end.

(** Python [str] comparison [a >= b]: lexicographic on code points. *)
Definition str_ge (a b : string) : bool := negb (String.ltb a b).

Definition bool_to_num (b : bool) : num := if b then Fin 1%Qc else Fin 0%Qc.

(** ** The data processor *)

Module RepoDataProcessor.

Record CreditFields : Type := {
  rating_risk_weight : num;
  credit_risk_score : num;
  high_risk_rating_flag : bool;
  credit_adjusted_exposure : num
}.

Record MarketFields : Type := {
  collateral_quality_score : num;
  haircut_risk_score : num;
  specialness_risk_score : num;
  market_risk_score : num
}.

Record LiquidityFields : Type := {
  encumbrance_risk_score : num;
  margin_call_risk_score : num;
  liquidity_risk_score : num
}.

Record OperationalFields : Type := {
  wrong_way_risk_score : num;
  cross_currency_risk_score : num;
  ccp_clearing_risk_score : num;
  operational_risk_score : num
}.

Record TermFields : Type := {
  maturity_risk_score : num;
  open_repo_risk_score : num;
  term_risk_score : num
}.

Record StressFields : Type := {
  mild_stress_exposure : num;
  severe_stress_exposure : num;
  mild_stress_risk_score : num;
  severe_stress_risk_score : num
}.

Record CompositeFields : Type := {
  composite_risk_score : num;
  risk_category : RiskCategory
}.

(** A row of [processed_data]: the input columns and the derived ones. *)
Record Row : Type := {
  trade : Trade;
  credit : CreditFields;
  market : MarketFields;
  liquidity : LiquidityFields;
  operational : OperationalFields;
  term : TermFields;
  stress : StressFields;
  composite : CompositeFields
}.

Section Derivation.
Variable config : Config.
Local Open Scope num_scope.

(** [Series.map(dict)]: a value that is not a key of the dictionary maps to
    [NaN]; no exception is raised. *)
Definition series_map (d : gmap string Qc) (k : string) : num :=
  match d !! k with
  | Some w => Fin w
  | None => NaN
  end.

Definition _derive_credit_risk_fields (t : Trade) : CreditFields :=
  let rating_risk_weight := series_map (rating_weights config) (counterparty_rating t) in
  let credit_risk_score := rating_risk_weight / (100 # 1) in
  let high_risk_threshold := high_risk_rating_threshold config in
  {| rating_risk_weight := rating_risk_weight;
     credit_risk_score := credit_risk_score;
     high_risk_rating_flag := str_ge (counterparty_rating t) high_risk_threshold;
     credit_adjusted_exposure := notional_musd t * ((1 # 1) + credit_risk_score) |}.

Definition _derive_market_risk_fields (t : Trade) : MarketFields :=
  let collateral_quality_score :=
    (collateral_liquidity_score t * (4 # 10)) +
    (((1 # 1) - collateral_price_vol_20d_pct t / (100 # 1)) * (3 # 10)) +
    (bool_to_num (qc_leb (collateral_duration_years t) (qc 5 1)) * (3 # 10)) in
  let max_haircut := max_haircut_pct config in
  let haircut_risk_score := haircut_pct t / max_haircut in
  let max_specialness := max_specialness_bp config in
  let specialness_risk_score := specialness_bp t / max_specialness in
  {| collateral_quality_score := collateral_quality_score;
     haircut_risk_score := haircut_risk_score;
     specialness_risk_score := specialness_risk_score;
     market_risk_score :=
       ((1 # 1) - collateral_quality_score) * (4 # 10) +
       haircut_risk_score * (3 # 10) +
       specialness_risk_score * (3 # 10) |}.

Definition _derive_liquidity_risk_fields (t : Trade) : LiquidityFields :=
  let max_encumbrance := max_encumbrance_days config in
  let encumbrance_risk_score :=
    clip_upper (1 # 1) (encumbrance_days t / max_encumbrance) in
  let max_mild_margin := max_mild_margin_call_musd config in
  let max_severe_margin := max_severe_margin_call_musd config in
  let margin_call_risk_score :=
    clip_upper (1 # 1)
      ((margin_call_mild_musd t / max_mild_margin * (5 # 10)) +
       (margin_call_severe_musd t / max_severe_margin * (5 # 10))) in
  {| encumbrance_risk_score := encumbrance_risk_score;
     margin_call_risk_score := margin_call_risk_score;
     liquidity_risk_score :=
       encumbrance_risk_score * (6 # 10) + margin_call_risk_score * (4 # 10) |}.

Definition _derive_operational_risk_fields (t : Trade) : OperationalFields :=
  let wrong_way_risk_score : num := wrong_way_risk_flag t in
  let cross_currency_risk_score : num := cross_ccy_flag t in
  let ccp_clearing_risk_score := (1 # 1) - ccp_cleared_flag t in
  {| wrong_way_risk_score := wrong_way_risk_score;
     cross_currency_risk_score := cross_currency_risk_score;
     ccp_clearing_risk_score := ccp_clearing_risk_score;
     operational_risk_score :=
       wrong_way_risk_score * (4 # 10) +
       cross_currency_risk_score * (3 # 10) +
       ccp_clearing_risk_score * (3 # 10) |}.

Definition _derive_term_risk_fields (t : Trade) : TermFields :=
  let max_term := max_term_days config in
  let maturity_risk_score := clip_upper (1 # 1) (days_to_maturity t / max_term) in
  let open_repo_risk_score := bool_to_num (String.eqb (term_type t) "Open") in
  {| maturity_risk_score := maturity_risk_score;
     open_repo_risk_score := open_repo_risk_score;
     term_risk_score :=
       maturity_risk_score * (7 # 10) + open_repo_risk_score * (3 # 10) |}.

Definition _derive_stress_testing_fields (t : Trade) (c : CreditFields) : StressFields :=
  let mild := mild_stress config in
  let severe := severe_stress config in
  {| mild_stress_exposure := notional_musd t * mild;
     severe_stress_exposure := notional_musd t * severe;
     mild_stress_risk_score := clip_upper (1 # 1) (credit_risk_score c * mild);
     severe_stress_risk_score := clip_upper (1 # 1) (credit_risk_score c * severe) |}.

Definition assign_risk_category (score : num) : RiskCategory :=
  if score <=? threshold_low_risk config then Low
  else if score <=? threshold_medium_risk config then Medium
  else if score <=? threshold_high_risk config then High
  else Critical.

Definition _calculate_composite_risk_score
    (c : CreditFields) (m : MarketFields) (l : LiquidityFields)
    (o : OperationalFields) (tm : TermFields) : CompositeFields :=
  let composite_risk_score :=
    credit_risk_score c * weight_credit_risk config +
    market_risk_score m * weight_market_risk config +
    liquidity_risk_score l * weight_liquidity_risk config +
    operational_risk_score o * weight_operational_risk config +
    term_risk_score tm * weight_term_risk config in
  {| composite_risk_score := composite_risk_score;
     risk_category := assign_risk_category composite_risk_score |}.

(** The seven derivation steps of [derive_risk_fields], for one row; every
    step works column-wise, so each row is derived from its own inputs. *)
Definition derive_row (t : Trade) : Row :=
  let c := _derive_credit_risk_fields t in
  let m := _derive_market_risk_fields t in
  let l := _derive_liquidity_risk_fields t in
  let o := _derive_operational_risk_fields t in
  let tm := _derive_term_risk_fields t in
  let s := _derive_stress_testing_fields t c in
  {| trade := t; credit := c; market := m; liquidity := l; operational := o;
     term := tm; stress := s;
     composite := _calculate_composite_risk_score c m l o tm |}.

End Derivation.

(** The processor object: its configuration, the loaded data and the
    processed data ([None] until set). *)
Record t : Type := {
  config : Config;
  data : option (list Trade);
  processed_data : option (list Row)
}.

Definition new (cfg : Config) : t :=
  {| config := cfg; data := None; processed_data := None |}.

Definition set_data (p : t) (d : list Trade) : t :=
  {| config := config p; data := Some d; processed_data := processed_data p |}.

Definition derive_risk_fields (p : t) : result (t * list Row) :=
  match data p with
  | None => Raise (ValueError "No data loaded. Call load_data() first.")
  | Some d =>
      let processed := map (derive_row (config p)) d in
      Ok ({| config := config p; data := data p;
             processed_data := Some processed |}, processed)
  end.

Definition get_processed_data (p : t) : result (list Row) :=
  match processed_data p with
  | None => Raise (ValueError "No processed data available. Call derive_risk_fields() first.")
  | Some d => Ok d
  end.

End RepoDataProcessor.

(** ** The counterparty analyzer *)

#[global] Instance RiskCategory_eq_dec : EqDecision RiskCategory.
Proof. solve_decision. Defined.

(** The dataclass [CounterpartyRiskProfile]. *)
Module Profile.
Record t : Type := {
  counterparty_type : string;
  total_exposure : num;
  trade_count : nat;
  average_risk_score : num;
  max_risk_score : num;
  risk_category : RiskCategory;
  credit_risk_score : num;
  market_risk_score : num;
  liquidity_risk_score : num;
  operational_risk_score : num;
  term_risk_score : num;
  concentration_ratio : num;
  high_risk_trades : nat;
  critical_risk_trades : nat;
  risk_flags : list string
}.

(** Assignment to the attribute [concentration_ratio]. *)
Definition set_concentration_ratio (p : t) (r : num) : t :=
  {| counterparty_type := counterparty_type p;
     total_exposure := total_exposure p;
     trade_count := trade_count p;
     average_risk_score := average_risk_score p;
     max_risk_score := max_risk_score p;
     risk_category := risk_category p;
     credit_risk_score := credit_risk_score p;
     market_risk_score := market_risk_score p;
     liquidity_risk_score := liquidity_risk_score p;
     operational_risk_score := operational_risk_score p;
     term_risk_score := term_risk_score p;
     concentration_ratio := r;
     high_risk_trades := high_risk_trades p;
     critical_risk_trades := critical_risk_trades p;
     risk_flags := risk_flags p |}.
End Profile.

(** The dictionary returned by [_calculate_concentration_metrics]. *)
Record ConcentrationMetrics : Type := {
  top_5_concentration_pct : num;
  herfindahl_hirschman_index : num;
  largest_counterparty_pct : num;
  largest_counterparty : option string
}.

(** The dictionary [risk_aggregates]. *)
Record Aggregates : Type := {
  total_portfolio_exposure : num;
  total_trades : nat;
  unique_counterparties : nat;
  portfolio_average_risk_score : num;
  portfolio_max_risk_score : num;
  high_risk_exposure : num;
  critical_risk_exposure : num;
  high_risk_exposure_pct : num;
  critical_risk_exposure_pct : num;
  risk_distribution : gmap string nat;
  counterparty_concentration : ConcentrationMetrics;
  collateral_quality_distribution : gmap string nat;
  currency_distribution : gmap string nat;
  jurisdiction_distribution : gmap string nat
}.

Record RiskFlags : Type := {
  critical_flags : list string;
  high_flags : list string;
  medium_flags : list string;
  recommendations : list string
}.

Record Summary : Type := {
  analysis_date : string;
  total_counterparties : nat;
  summary_high_risk_counterparties : nat;
  portfolio_risk_level : string;
  key_average_risk_score : num;
  key_high_risk_exposure_pct : num;
  key_critical_risk_exposure_pct : num;
  key_concentration_hhi : num
}.

(** The dictionary returned by [analyze_counterparties]. *)
Module AnalysisResults.
Record t : Type := {
  counterparty_profiles : gmap string Profile.t;
  high_risk_counterparties : list string;
  portfolio_aggregates : Aggregates;
  risk_flags : RiskFlags;
  summary : Summary
}.
End AnalysisResults.

(** *** Data-frame operations used by the analyzer *)

Module DP := RepoDataProcessor.

Definition notional_col (data : list DP.Row) : list num :=
  map (fun r => Fin (notional_musd (DP.trade r))) data.

Definition composite_col (data : list DP.Row) : list num :=
  map (fun r => DP.composite_risk_score (DP.composite r)) data.

(** [data[data['composite_risk_score'] > cut]]. *)
Definition rows_above (cut : num) (data : list DP.Row) : list DP.Row :=
  List.filter (fun r => DP.composite_risk_score (DP.composite r) >? cut)%num data.

(** [groupby(key)]: groups in ascending key order, rows of a group in their
    original order. *)
Fixpoint group_add (k : string) (r : DP.Row) (gs : list (string * list DP.Row))
  : list (string * list DP.Row) :=
  match gs with
  | [] => [(k, [r])]
  | (k', rs) :: rest =>
      match String.compare k k' with
      | Eq => (k', rs ++ [r]) :: rest
      | Lt => (k, [r]) :: gs
      | Gt => (k', rs) :: group_add k r rest
      end
  end.

Definition groupby (key : DP.Row -> string) (data : list DP.Row)
  : list (string * list DP.Row) :=
  fold_left (fun gs r => group_add (key r) r gs) data [].

Definition by_counterparty_type (data : list DP.Row) :=
  groupby (fun r => counterparty_type (DP.trade r)) data.

(** [Series.value_counts().to_dict()]. *)
Definition value_counts (c : list string) : gmap string nat :=
  fold_left (fun m k => <[k := S (default 0%nat (m !! k))]> m) c ∅.

(** [Series.nunique()]. *)
Definition nunique (c : list string) : nat := length (remove_dups c).

Definition count_cat (c : RiskCategory) (col : list RiskCategory) : nat :=
  length (List.filter (fun x => bool_decide (x = c)) col).

(** [Series.mode()]: the most frequent values in sorted order (as strings:
    Critical, High, Low, Medium); empty for an empty column. *)
Definition mode (col : list RiskCategory) : list RiskCategory :=
  match col with
  | [] => []
  | _ =>
      let cats := [Critical; High; Low; Medium] in
      let best := fold_left Nat.max (map (fun c => count_cat c col) cats) 0%nat in
      List.filter (fun c => Nat.eqb (count_cat c col) best) cats
  end.

(** [Series.sort_values(ascending=False)] on an indexed series: larger values
    first, [NaN] last; entries with equal values keep their index order. *)
Definition goes_after (x y : num) : bool :=
  (x <? y)%num || (is_nan x && negb (is_nan y)).

Fixpoint insert_desc (x : string * num) (l : list (string * num))
  : list (string * num) :=
  match l with
  | [] => [x]
  | y :: l' => if goes_after (snd x) (snd y) then y :: insert_desc x l' else x :: l
  end.

Definition sort_values_desc (s : list (string * num)) : list (string * num) :=
  fold_right insert_desc [] s.

(** [Series.iloc[0]]. *)
Definition iloc0 {A : Type} (s : list A) : result A :=
  match s with
  | [] => Raise (IndexError "single positional indexer is out-of-bounds")
  | x :: _ => Ok x
  end.

Module CounterpartyRiskAnalyzer.

(** The analyzer object: configuration and the three mutable attributes. *)
Record t : Type := {
  config : Config;
  counterparty_profiles : gmap string Profile.t;
  high_risk_counterparties : list string;
  risk_aggregates : option Aggregates
}.

(** [__init__]. *)
Definition new (cfg : Config) : t :=
  {| config := cfg; counterparty_profiles := ∅;
     high_risk_counterparties := []; risk_aggregates := None |}.

Section Methods.
Variable cfg : Config.
Local Open Scope num_scope.

Definition append_if (c : bool) (flag : string) (flags : list string) : list string :=
  if c then flags ++ [flag] else flags.

(** [Series.any()] on a numeric 0/1 column. *)
Definition any_nonzero (f : Trade -> Qc) (data : list DP.Row) : bool :=
  existsb (fun r => negb (qc_eqb (f (DP.trade r)) 0%Qc)) data.

Definition _generate_counterparty_risk_flags
    (data : list DP.Row) (total_exposure : num) (concentration_ratio : num)
  : list string :=
  let flags := [] in
  let flags := append_if
    (col_any (map (fun r => DP.high_risk_rating_flag (DP.credit r)) data))
    "HIGH_RISK_RATING" flags in
  let flags := append_if
    (col_mean (map (fun r => DP.credit_risk_score (DP.credit r)) data) >? 7 # 10)
    "HIGH_CREDIT_RISK" flags in
  let flags := append_if
    (col_mean (map (fun r => DP.haircut_risk_score (DP.market r)) data) >? 8 # 10)
    "HIGH_HAIRCUT_RISK" flags in
  let flags := append_if
    (col_mean (map (fun r => DP.specialness_risk_score (DP.market r)) data) >? 8 # 10)
    "HIGH_SPECIALNESS_RISK" flags in
  let flags := append_if
    (col_mean (map (fun r => DP.encumbrance_risk_score (DP.liquidity r)) data) >? 8 # 10)
    "HIGH_ENCUMBRANCE_RISK" flags in
  let flags := append_if
    (col_mean (map (fun r => DP.margin_call_risk_score (DP.liquidity r)) data) >? 8 # 10)
    "HIGH_MARGIN_CALL_RISK" flags in
  let flags := append_if (any_nonzero wrong_way_risk_flag data)
    "WRONG_WAY_RISK" flags in
  let flags := append_if (any_nonzero cross_ccy_flag data)
    "CROSS_CURRENCY_RISK" flags in
  let flags := append_if
    (concentration_ratio >? single_counterparty_limit_pct cfg)
    "HIGH_CONCENTRATION" flags in
  let flags := append_if
    (col_mean (map (fun r => DP.term_risk_score (DP.term r)) data) >? 8 # 10)
    "HIGH_TERM_RISK" flags in
  flags.

Definition _create_counterparty_profile (counterparty_type : string)
    (data : list DP.Row) : Profile.t :=
  let total_exposure := col_sum (notional_col data) in
  let trade_count := length data in
  let average_risk_score := col_mean (composite_col data) in
  let max_risk_score := col_max (composite_col data) in
  let risk_category :=
    match mode (map (fun r => DP.risk_category (DP.composite r)) data) with
    | c :: _ => c
    | [] => Medium
    end in
  let credit_risk_score :=
    col_mean (map (fun r => DP.credit_risk_score (DP.credit r)) data) in
  let market_risk_score :=
    col_mean (map (fun r => DP.market_risk_score (DP.market r)) data) in
  let liquidity_risk_score :=
    col_mean (map (fun r => DP.liquidity_risk_score (DP.liquidity r)) data) in
  let operational_risk_score :=
    col_mean (map (fun r => DP.operational_risk_score (DP.operational r)) data) in
  let term_risk_score :=
    col_mean (map (fun r => DP.term_risk_score (DP.term r)) data) in
  let total_portfolio := col_sum (notional_col data) in
  let concentration_ratio :=
    if total_portfolio >? 0 # 1
    then total_exposure / total_portfolio * (100 # 1)
    else 0 # 1 in
  let high_risk_trades :=
    count_true (map (fun s => s >? 7 # 10) (composite_col data)) in
  let critical_risk_trades :=
    count_true (map (fun s => s >? 9 # 10) (composite_col data)) in
  let risk_flags :=
    _generate_counterparty_risk_flags data total_exposure concentration_ratio in
  {| Profile.counterparty_type := counterparty_type;
     Profile.total_exposure := total_exposure;
     Profile.trade_count := trade_count;
     Profile.average_risk_score := average_risk_score;
     Profile.max_risk_score := max_risk_score;
     Profile.risk_category := risk_category;
     Profile.credit_risk_score := credit_risk_score;
     Profile.market_risk_score := market_risk_score;
     Profile.liquidity_risk_score := liquidity_risk_score;
     Profile.operational_risk_score := operational_risk_score;
     Profile.term_risk_score := term_risk_score;
     Profile.concentration_ratio := concentration_ratio;
     Profile.high_risk_trades := high_risk_trades;
     Profile.critical_risk_trades := critical_risk_trades;
     Profile.risk_flags := risk_flags |}.

(** The list [risk_criteria] of [_is_high_risk_counterparty]. *)
Definition risk_criteria (profile : Profile.t) : list bool :=
  [ Profile.average_risk_score profile >? threshold_high_risk cfg;
    Profile.max_risk_score profile >? threshold_critical_risk cfg;
    Profile.concentration_ratio profile >? single_counterparty_limit_pct cfg;
    of_nat (Profile.high_risk_trades profile) >?
      of_nat (Profile.trade_count profile) * (3 # 10);
    (0 <? Profile.critical_risk_trades profile)%nat;
    Profile.credit_risk_score profile >? 7 # 10;
    Profile.market_risk_score profile >? 7 # 10;
    Profile.liquidity_risk_score profile >? 7 # 10 ].

(** Python's [sum] over a list of booleans. *)
Definition sum_bools (l : list bool) : nat :=
  fold_left (fun acc (b : bool) => (acc + (if b then 1 else 0))%nat) l 0%nat.

Definition _is_high_risk_counterparty (profile : Profile.t) : bool :=
  (3 <=? sum_bools (risk_criteria profile))%nat.

Definition _calculate_concentration_metrics (data : list DP.Row)
  : result ConcentrationMetrics :=
  let counterparty_exposures :=
    sort_values_desc
      (map (fun g => (fst g, col_sum (notional_col (snd g))))
           (by_counterparty_type data)) in
  let total_exposure := col_sum (map snd counterparty_exposures) in
  let top_5_concentration :=
    if total_exposure >? 0 # 1
    then col_sum (map snd (take 5 counterparty_exposures)) / total_exposure * (100 # 1)
    else 0 # 1 in
  let hhi :=
    if total_exposure >? 0 # 1
    then col_sum (map (fun e => (snd e / total_exposure) * (snd e / total_exposure))
                      counterparty_exposures)
    else 0 # 1 in
  try! largest_pct :=
    (if total_exposure >? 0 # 1
     then try! first := iloc0 counterparty_exposures in
          Ok (snd first / total_exposure * (100 # 1))
     else Ok (0 # 1)) in
  Ok {| top_5_concentration_pct := top_5_concentration;
        herfindahl_hirschman_index := hhi;
        largest_counterparty_pct := largest_pct;
        largest_counterparty :=
          match counterparty_exposures with
          | e :: _ => Some (fst e)
          | [] => None
          end |}.

End Methods.

Local Open Scope num_scope.

(** The back-fill loop of [_calculate_portfolio_aggregates]. *)
Definition update_concentration_ratio (total_portfolio : num) (profile : Profile.t)
  : Profile.t :=
  Profile.set_concentration_ratio profile
    (if total_portfolio >? 0 # 1
     then Profile.total_exposure profile / total_portfolio * (100 # 1)
     else 0 # 1).

Definition _calculate_portfolio_aggregates (self : t) (data : list DP.Row)
  : result t :=
  let total_portfolio := col_sum (notional_col data) in
  try! concentration := _calculate_concentration_metrics data in
  let aggregates :=
    {| total_portfolio_exposure := total_portfolio;
       total_trades := length data;
       unique_counterparties :=
         nunique (map (fun r => counterparty_type (DP.trade r)) data);
       portfolio_average_risk_score := col_mean (composite_col data);
       portfolio_max_risk_score := col_max (composite_col data);
       high_risk_exposure := col_sum (notional_col (rows_above (7 # 10) data));
       critical_risk_exposure := col_sum (notional_col (rows_above (9 # 10) data));
       high_risk_exposure_pct :=
         if total_portfolio >? 0 # 1
         then col_sum (notional_col (rows_above (7 # 10) data))
              / total_portfolio * (100 # 1)
         else 0 # 1;
       critical_risk_exposure_pct :=
         if total_portfolio >? 0 # 1
         then col_sum (notional_col (rows_above (9 # 10) data))
              / total_portfolio * (100 # 1)
         else 0 # 1;
       risk_distribution :=
         value_counts (map (fun r => category_name (DP.risk_category (DP.composite r))) data);
       counterparty_concentration := concentration;
       collateral_quality_distribution :=
         value_counts (map (fun r => collateral_hqla_level (DP.trade r)) data);
       currency_distribution :=
         value_counts (map (fun r => currency (DP.trade r)) data);
       jurisdiction_distribution :=
         value_counts (map (fun r => jurisdiction (DP.trade r)) data) |} in
  Ok {| config := config self;
        counterparty_profiles :=
          update_concentration_ratio total_portfolio <$> counterparty_profiles self;
        high_risk_counterparties := high_risk_counterparties self;
        risk_aggregates := Some aggregates |}.

(** Reading [self.risk_aggregates[key]]: the dictionary is either the empty
    one of [__init__], which has no key, or the one that
    [_calculate_portfolio_aggregates] stores, which has them all.  A method
    that subscripts it several times fails at its first subscript, with that
    key. *)
Definition get_risk_aggregates (self : t) (key : string) : result Aggregates :=
  match risk_aggregates self with
  | Some g => Ok g
  | None => Raise (KeyError key)
  end.

(** [flags[level].append(flag); flags['recommendations'].append(rec)]
    under the condition [c], for the three levels. *)
Definition add_critical (c : bool) (flag rec : string) (flags : RiskFlags) : RiskFlags :=
  if c then
    {| critical_flags := critical_flags flags ++ [flag];
       high_flags := high_flags flags;
       medium_flags := medium_flags flags;
       recommendations := recommendations flags ++ [rec] |}
  else flags.

Definition add_high (c : bool) (flag rec : string) (flags : RiskFlags) : RiskFlags :=
  if c then
    {| critical_flags := critical_flags flags;
       high_flags := high_flags flags ++ [flag];
       medium_flags := medium_flags flags;
       recommendations := recommendations flags ++ [rec] |}
  else flags.

Definition add_medium (c : bool) (flag rec : string) (flags : RiskFlags) : RiskFlags :=
  if c then
    {| critical_flags := critical_flags flags;
       high_flags := high_flags flags;
       medium_flags := medium_flags flags ++ [flag];
       recommendations := recommendations flags ++ [rec] |}
  else flags.

Definition _generate_risk_flags (self : t) (data : list DP.Row) : result RiskFlags :=
  try! agg := get_risk_aggregates self "critical_risk_exposure_pct" in
  let flags :=
    {| critical_flags := []; high_flags := []; medium_flags := [];
       recommendations := [] |} in
  let flags :=
    add_critical (critical_risk_exposure_pct agg >? 10 # 1)
      "CRITICAL_RISK_EXPOSURE_HIGH"
      "Immediately reduce exposure to critical risk trades" flags in
  let flags :=
    add_critical
      (herfindahl_hirschman_index (counterparty_concentration agg) >? 25 # 100)
      "HIGH_PORTFOLIO_CONCENTRATION"
      "Diversify counterparty exposure to reduce concentration risk" flags in
  let flags :=
    add_high (high_risk_exposure_pct agg >? 25 # 1)
      "HIGH_RISK_EXPOSURE_ELEVATED"
      "Review and potentially reduce high-risk exposures" flags in
  let flags :=
    add_high (3 <? length (high_risk_counterparties self))%nat
      "MULTIPLE_HIGH_RISK_COUNTERPARTIES"
      "Review risk management policies for high-risk counterparties" flags in
  let flags :=
    add_medium (portfolio_average_risk_score agg >? 5 # 10)
      "PORTFOLIO_RISK_SCORE_ELEVATED"
      "Monitor portfolio risk levels and consider risk reduction strategies" flags in
  let flags :=
    add_medium (top_5_concentration_pct (counterparty_concentration agg) >? 60 # 1)
      "TOP_5_CONCENTRATION_HIGH"
      "Consider diversifying away from top 5 counterparties" flags in
  Ok flags.

Definition _determine_portfolio_risk_level (self : t) : result string :=
  try! agg := get_risk_aggregates self "portfolio_average_risk_score" in
  let risk_score := portfolio_average_risk_score agg in
  let high_risk_pct := high_risk_exposure_pct agg in
  let critical_risk_pct := critical_risk_exposure_pct agg in
  Ok (if (risk_score >? 8 # 10) || (critical_risk_pct >? 15 # 1) then "CRITICAL"
      else if (risk_score >? 6 # 10) || (high_risk_pct >? 30 # 1) then "HIGH"
      else if (risk_score >? 4 # 10) || (high_risk_pct >? 15 # 1) then "MEDIUM"
      else "LOW").

(** [now] is the reading of the clock ([datetime.now()], formatted). *)
Definition _generate_summary (self : t) (now : string) (data : list DP.Row)
  : result Summary :=
  try! level := _determine_portfolio_risk_level self in
  try! agg := get_risk_aggregates self "portfolio_average_risk_score" in
  Ok {| analysis_date := now;
        total_counterparties := size (counterparty_profiles self);
        summary_high_risk_counterparties := length (high_risk_counterparties self);
        portfolio_risk_level := level;
        key_average_risk_score := portfolio_average_risk_score agg;
        key_high_risk_exposure_pct := high_risk_exposure_pct agg;
        key_critical_risk_exposure_pct := critical_risk_exposure_pct agg;
        key_concentration_hhi :=
          herfindahl_hirschman_index (counterparty_concentration agg) |}.

(** One iteration of the loop over the groups in [analyze_counterparties]. *)
Definition analyze_group (self : t) (g : string * list DP.Row) : t :=
  let '(counterparty_type, group_data) := g in
  let profile := _create_counterparty_profile (config self) counterparty_type group_data in
  {| config := config self;
     counterparty_profiles := <[counterparty_type := profile]> (counterparty_profiles self);
     high_risk_counterparties :=
       if _is_high_risk_counterparty (config self) profile
       then high_risk_counterparties self ++ [counterparty_type]
       else high_risk_counterparties self;
     risk_aggregates := risk_aggregates self |}.

Definition analyze_counterparties (self : t) (now : string) (data : list DP.Row)
  : result (t * AnalysisResults.t) :=
  let counterparty_groups := by_counterparty_type data in
  let self := fold_left analyze_group counterparty_groups self in
  try! self := _calculate_portfolio_aggregates self data in
  try! risk_flags := _generate_risk_flags self data in
  (* ['portfolio_aggregates': self.risk_aggregates] reads the dictionary
     whole; it is the stored one here, [_generate_risk_flags] having
     subscripted it just before. *)
  try! agg := get_risk_aggregates self "critical_risk_exposure_pct" in
  try! summary := _generate_summary self now data in
  Ok (self,
      {| AnalysisResults.counterparty_profiles := counterparty_profiles self;
         AnalysisResults.high_risk_counterparties := high_risk_counterparties self;
         AnalysisResults.portfolio_aggregates := agg;
         AnalysisResults.risk_flags := risk_flags;
         AnalysisResults.summary := summary |}).

End CounterpartyRiskAnalyzer.

Module CRA := CounterpartyRiskAnalyzer.

(** ** The pipeline: field derivation, then counterparty analysis

    As in [run_analysis] and in the scenario script: the processor derives
    the risk fields of its loaded data and the analyzer analyses them. *)
Definition run_pipeline (p : DP.t) (a : CRA.t) (now : string)
  : result (DP.t * CRA.t * AnalysisResults.t) :=
  try! pd := DP.derive_risk_fields p in
  try! ar := CRA.analyze_counterparties a now (snd pd) in
  Ok (fst pd, fst ar, snd ar).

(** ** Further methods of the processor and of the analyzer *)

(** The dictionary returned by [get_data_summary]. *)
Module DataSummary.
Record t : Type := {
  total_trades : nat;
  total_notional : num;
  unique_counterparties : nat;
  risk_distribution : gmap string nat;
  average_risk_score : num;
  high_risk_trades : nat;
  critical_risk_trades : nat
}.
End DataSummary.

Definition get_data_summary (p : DP.t) : result DataSummary.t :=
  match DP.processed_data p with
  | None =>
      Raise (ValueError "No processed data available. Call derive_risk_fields() first.")
  | Some processed =>
      Ok {| DataSummary.total_trades := length processed;
            DataSummary.total_notional := col_sum (notional_col processed);
            DataSummary.unique_counterparties :=
              nunique (map (fun r => counterparty_type (DP.trade r)) processed);
            DataSummary.risk_distribution :=
              value_counts
                (map (fun r => category_name (DP.risk_category (DP.composite r)))
                     processed);
            DataSummary.average_risk_score := col_mean (composite_col processed);
            DataSummary.high_risk_trades :=
              count_true (map (fun s => s >? 7 # 10)%num (composite_col processed));
            DataSummary.critical_risk_trades :=
              count_true (map (fun s => s >? 9 # 10)%num (composite_col processed)) |}
  end.

(** One row of the frame built by [get_high_risk_counterparties_details];
    the flags are joined with a comma and a blank. *)
Module Details.
Record t : Type := {
  counterparty_type : string;
  total_exposure : num;
  trade_count : nat;
  average_risk_score : num;
  max_risk_score : num;
  risk_category : RiskCategory;
  concentration_ratio : num;
  high_risk_trades : nat;
  critical_risk_trades : nat;
  risk_flags : string
}.
End Details.

(** [', '.join(flags)]. *)
Fixpoint join_flags (flags : list string) : string :=
  match flags with
  | [] => ""
  | [f] => f
  | f :: rest => (f ++ ", " ++ join_flags rest)%string
  end.

Definition details_of (profile : Profile.t) : Details.t :=
  {| Details.counterparty_type := Profile.counterparty_type profile;
     Details.total_exposure := Profile.total_exposure profile;
     Details.trade_count := Profile.trade_count profile;
     Details.average_risk_score := Profile.average_risk_score profile;
     Details.max_risk_score := Profile.max_risk_score profile;
     Details.risk_category := Profile.risk_category profile;
     Details.concentration_ratio := Profile.concentration_ratio profile;
     Details.high_risk_trades := Profile.high_risk_trades profile;
     Details.critical_risk_trades := Profile.critical_risk_trades profile;
     Details.risk_flags := join_flags (Profile.risk_flags profile) |}.

(** The loop of [get_high_risk_counterparties_details]: the subscript
    [self.counterparty_profiles[counterparty]] raises on a missing key. *)
Fixpoint details_rows (profiles : gmap string Profile.t) (names : list string)
  : result (list Details.t) :=
  match names with
  | [] => Ok []
  | counterparty :: rest =>
      match profiles !! counterparty with
      | None => Raise (KeyError counterparty)
      | Some profile =>
          try! details := details_rows profiles rest in
          Ok (details_of profile :: details)
      end
  end.

(** The frame, as the list of its rows; an analyzer without high-risk
    counterparties gives the empty frame. *)
Definition get_high_risk_counterparties_details (self : CRA.t)
  : result (list Details.t) :=
  match CRA.high_risk_counterparties self with
  | [] => Ok []
  | _ => details_rows (CRA.counterparty_profiles self)
                      (CRA.high_risk_counterparties self)
  end.

(** ** Auxiliary notions for the statements *)

Definition is_fin (x : num) : bool :=
  match x with Fin _ => true | _ => false end.

(** Strict order of Python strings. *)
Definition str_lt (a b : string) : Prop := String.compare a b = Lt.

(** The rows of a frame whose key is [k], in their order. *)
Definition rows_with_key (key : DP.Row -> string) (k : string) (data : list DP.Row)
  : list DP.Row :=
  List.filter (fun r => String.eqb (key r) k) data.

Definition row_counterparty (r : DP.Row) : string := counterparty_type (DP.trade r).

(** The rows that a list of groups holds under the key [k]. *)
Definition assoc_rows (k : string) (gs : list (string * list DP.Row)) : list DP.Row :=
  flat_map (fun g => if String.eqb (fst g) k then snd g else []) gs.

(** The number of entries of a column that equal [k]. *)
Definition occurrences (k : string) (c : list string) : nat :=
  length (List.filter (String.eqb k) c).

(** The sum of the counts of a dictionary of counts. *)
Definition dict_total (m : gmap string nat) : nat :=
  map_fold (fun _ n acc => (n + acc)%nat) 0%nat m.

(** The local series [counterparty_exposures] of
    [_calculate_concentration_metrics]: exposure per counterparty type,
    largest first. *)
Definition counterparty_exposures (data : list DP.Row) : list (string * num) :=
  sort_values_desc
    (map (fun g => (fst g, col_sum (notional_col (snd g))))
         (by_counterparty_type data)).

(** [x] stands before [y] in a descending series. *)
Definition desc (x y : string * num) : Prop := (snd y <=? snd x)%num = true.

(** [self.counterparty_profiles.values()]. *)
Definition profile_values (m : gmap string Profile.t) : list Profile.t :=
  map snd (map_to_list m).

(** ** Reference readings of the specification *)

Definition b2n (b : bool) : nat := if b then 1 else 0.

(** The eight criteria of the high-risk vote, as the specification lists
    them, and the number of them that a profile meets. *)
Definition criteria_met (cfg : Config) (p : Profile.t) : nat :=
  (b2n (Profile.average_risk_score p >? threshold_high_risk cfg)%num
   + b2n (Profile.max_risk_score p >? threshold_critical_risk cfg)%num
   + b2n (Profile.concentration_ratio p >? single_counterparty_limit_pct cfg)%num
   + b2n (of_nat (Profile.high_risk_trades p)
            >? of_nat (Profile.trade_count p) * (30 # 100))%num
   + b2n (0 <? Profile.critical_risk_trades p)%nat
   + b2n (Profile.credit_risk_score p >? 7 # 10)%num
   + b2n (Profile.market_risk_score p >? 7 # 10)%num
   + b2n (Profile.liquidity_risk_score p >? 7 # 10)%num)%nat.

(** The rating grades in their order, best first: the keys of the weight
    table of [_get_default_config], whose weights grow along it. *)
Definition rating_grades : list string :=
  ["AAA"; "AA"; "A"; "BBB"; "BB"; "B"; "CCC"; "CC"; "C"; "D"].

Fixpoint grade_index (g : string) (grades : list string) : option nat :=
  match grades with
  | [] => None
  | g' :: rest =>
      if String.eqb g g' then Some 0%nat
      else option_map S (grade_index g rest)
  end.

(** [rating] is at or past [threshold] in the order of the grades. *)
Definition at_or_past (rating threshold : string) : bool :=
  match grade_index rating rating_grades, grade_index threshold rating_grades with
  | Some i, Some j => (j <=? i)%nat
  | _, _ => false
  end.

(** The notional of a processed row, and the total notional of rows. *)
Definition row_notional (r : DP.Row) : Qc := notional_musd (DP.trade r).

Definition rows_total (data : list DP.Row) : Qc :=
  foldr Qcplus 0%Qc (map row_notional data).

(** The ordering of the three counts of a profile. *)
Definition counts_ordered (p : Profile.t) : Prop :=
  (Profile.critical_risk_trades p <= Profile.high_risk_trades p)%nat /\
  (Profile.high_risk_trades p <= Profile.trade_count p)%nat.

(** ** The totals of the analyzer in binary64

    [Series.sum()] adds the entries of a [float64] column one after the
    other, every addition rounded to the nearest binary64 value (ties to
    even), so that the result depends on the order of the entries.  The
    analyzer adds the notionals up in two orders: row by row for
    [total_portfolio] in [_calculate_portfolio_aggregates], and group sum by
    group sum, largest first, for [total_exposure] in
    [_calculate_concentration_metrics].  The ratios of the first method are
    guarded by the first total, the metrics of the second by the second.

    This module has the two computations on binary64 values.  A row is read
    through the two columns they use.  The sum of a group is taken like the
    sum of a column; pandas carries a correction term along in the sum of a
    group, which changes nothing for a group whose sum is exact. *)

Module Binary64.

(** A row: its [counterparty_type] and its [notional_musd]. *)
Definition Row : Type := (string * float)%type.

(** [Series.sum()] (skipna), starting from 0. *)
Definition series_sum (c : list float) : float :=
  fold_left PrimFloat.add (List.filter (fun x => negb (PrimFloat.is_nan x)) c) 0%float.

(** [groupby('counterparty_type')['notional_musd']]: groups in ascending key
    order, the notionals of a group in row order. *)
Fixpoint group_add (k : string) (x : float) (gs : list (string * list float))
  : list (string * list float) :=
  match gs with
  | [] => [(k, [x])]
  | (k', xs) :: rest =>
      match String.compare k k' with
      | Eq => (k', xs ++ [x]) :: rest
      | Lt => (k, [x]) :: gs
      | Gt => (k', xs) :: group_add k x rest
      end
  end.

Definition groupby (data : list Row) : list (string * list float) :=
  fold_left (fun gs r => group_add (fst r) (snd r) gs) data [].

(** [sort_values(ascending=False)]: larger values first, NaN last, equal
    values in index order. *)
Definition goes_after (x y : float) : bool :=
  PrimFloat.ltb x y || (PrimFloat.is_nan x && negb (PrimFloat.is_nan y)).

Fixpoint insert_desc (x : string * float) (l : list (string * float))
  : list (string * float) :=
  match l with
  | [] => [x]
  | y :: l' => if goes_after (snd x) (snd y) then y :: insert_desc x l' else x :: l
  end.

Definition sort_values_desc (s : list (string * float)) : list (string * float) :=
  fold_right insert_desc [] s.

Record ConcentrationMetrics : Type := {
  top_5_concentration_pct : float;
  herfindahl_hirschman_index : float;
  largest_counterparty_pct : float;
  largest_counterparty : option string
}.

(** [total_portfolio] of [_calculate_portfolio_aggregates]: the sum of the
    notional column, in row order. *)
Definition total_portfolio (data : list Row) : float :=
  series_sum (map snd data).

(** [(amount / total_portfolio * 100) if total_portfolio > 0 else 0]: the
    back-filled concentration ratio of a profile (with its exposure as the
    amount) and the high- and critical-risk exposure percentages. *)
Definition pct_of_total_portfolio (amount : float) (data : list Row) : float :=
  if PrimFloat.ltb 0%float (total_portfolio data)
  then (amount / total_portfolio data * 100)%float
  else 0%float.

(** The series [counterparty_exposures]. *)
Definition counterparty_exposures (data : list Row) : list (string * float) :=
  sort_values_desc (map (fun g => (fst g, series_sum (snd g))) (groupby data)).

Definition _calculate_concentration_metrics (data : list Row)
  : result ConcentrationMetrics :=
  let counterparty_exposures := counterparty_exposures data in
  let total_exposure := series_sum (map snd counterparty_exposures) in
  let top_5_concentration :=
    if PrimFloat.ltb 0%float total_exposure
    then (series_sum (map snd (take 5 counterparty_exposures))
          / total_exposure * 100)%float
    else 0%float in
  let hhi :=
    if PrimFloat.ltb 0%float total_exposure
    then series_sum (map (fun e => ((snd e / total_exposure)
                                    * (snd e / total_exposure))%float)
                         counterparty_exposures)
    else 0%float in
  try! largest_pct :=
    (if PrimFloat.ltb 0%float total_exposure
     then try! first := iloc0 counterparty_exposures in
          Ok (snd first / total_exposure * 100)%float
     else Ok 0%float) in
  Ok {| top_5_concentration_pct := top_5_concentration;
        herfindahl_hirschman_index := hhi;
        largest_counterparty_pct := largest_pct;
        largest_counterparty :=
          match counterparty_exposures with
          | e :: _ => Some (fst e)
          | [] => None
          end |}.

End Binary64.

(** ** Sample configuration and trades *)

(** The weight table of [_get_default_config]. *)
Definition default_rating_weights : gmap string Qc :=
  list_to_map
    [("AAA", qc 0 1); ("AA", qc 2 10); ("A", qc 5 10); ("BBB", qc 1 1);
     ("BB", qc 2 1); ("B", qc 3 1); ("CCC", qc 5 1); ("CC", qc 10 1);
     ("C", qc 15 1); ("D", qc 100 1)].

Definition sample_config : Config :=
  {| rating_weights := default_rating_weights;
     high_risk_rating_threshold := "BB";
     single_counterparty_limit_pct := qc 60 1;
     max_haircut_pct := qc 20 1;
     max_specialness_bp := qc 50 1;
     max_encumbrance_days := qc 30 1;
     max_mild_margin_call_musd := qc 5 1;
     max_severe_margin_call_musd := qc 10 1;
     max_term_days := qc 365 1;
     mild_stress := qc 12 10;
     severe_stress := qc 2 1;
     weight_credit_risk := qc 2 10;
     weight_market_risk := qc 2 10;
     weight_liquidity_risk := qc 2 10;
     weight_operational_risk := qc 2 10;
     weight_term_risk := qc 2 10;
     threshold_low_risk := qc 3 10;
     threshold_medium_risk := qc 5 10;
     threshold_high_risk := qc 7 10;
     threshold_critical_risk := qc 9 10 |}.

(** A plain trade of the given counterparty, rating and notional. *)
Definition sample_trade (ct rating : string) (notional : Qc) : Trade :=
  {| counterparty_type := ct;
     counterparty_rating := rating;
     currency := "USD";
     jurisdiction := "US";
     term_type := "Term";
     collateral_hqla_level := "L1";
     notional_musd := notional;
     haircut_pct := qc 2 1;
     specialness_bp := qc 5 1;
     collateral_liquidity_score := qc 9 10;
     collateral_price_vol_20d_pct := qc 5 1;
     collateral_duration_years := qc 3 1;
     encumbrance_days := qc 10 1;
     margin_call_mild_musd := qc 1 1;
     margin_call_severe_musd := qc 2 1;
     wrong_way_risk_flag := 0%Qc;
     cross_ccy_flag := 0%Qc;
     ccp_cleared_flag := 1%Qc;
     days_to_maturity := qc 30 1 |}.

(** A profile with the given scores and counts and nothing else of note. *)
Definition sample_profile (avg mx conc credit : num) (trades high critical : nat)
  : Profile.t :=
  {| Profile.counterparty_type := "Dealer";
     Profile.total_exposure := (100 # 1)%num;
     Profile.trade_count := trades;
     Profile.average_risk_score := avg;
     Profile.max_risk_score := mx;
     Profile.risk_category := Medium;
     Profile.credit_risk_score := credit;
     Profile.market_risk_score := (1 # 10)%num;
     Profile.liquidity_risk_score := (1 # 10)%num;
     Profile.operational_risk_score := (1 # 10)%num;
     Profile.term_risk_score := (1 # 10)%num;
     Profile.concentration_ratio := conc;
     Profile.high_risk_trades := high;
     Profile.critical_risk_trades := critical;
     Profile.risk_flags := [] |}.

(** A trade whose haircut is five times the configured maximum. *)
Definition outlier_haircut_trade : Trade :=
  {| counterparty_type := "HedgeFund";
     counterparty_rating := "BB";
     currency := "USD";
     jurisdiction := "US";
     term_type := "Term";
     collateral_hqla_level := "L1";
     notional_musd := qc 100 1;
     haircut_pct := qc 100 1;
     specialness_bp := qc 5 1;
     collateral_liquidity_score := qc 9 10;
     collateral_price_vol_20d_pct := qc 5 1;
     collateral_duration_years := qc 3 1;
     encumbrance_days := qc 10 1;
     margin_call_mild_musd := qc 15 1;
     margin_call_severe_musd := qc 30 1;
     wrong_way_risk_flag := 0%Qc;
     cross_ccy_flag := 0%Qc;
     ccp_cleared_flag := 1%Qc;
     days_to_maturity := qc 30 1 |}.

(** Three derived rows in two groups: a BBB and a B trade of a dealer and a
    trade of a bank whose rating the weight table does not have. *)
Definition sample_rows : list DP.Row :=
  map (DP.derive_row sample_config)
      [sample_trade "Dealer" "BBB" (qc 50 1);
       sample_trade "Bank" "NR" (qc 50 1);
       sample_trade "Dealer" "B" (qc 10 1)].

(** A processor that has loaded the three sample trades. *)
Definition sample_processor : DP.t :=
  DP.set_data (DP.new sample_config)
    [sample_trade "Dealer" "BBB" (qc 50 1);
     sample_trade "Bank" "NR" (qc 50 1);
     sample_trade "Dealer" "B" (qc 10 1)].

(** A trade in distress: defaulted rating, haircut, encumbrance and margin
    calls far above the maxima, all three operational flags adverse. *)
Definition distressed_trade : Trade :=
  {| counterparty_type := "HedgeFund";
     counterparty_rating := "D";
     currency := "EUR";
     jurisdiction := "UK";
     term_type := "Open";
     collateral_hqla_level := "L2B";
     notional_musd := qc 200 1;
     haircut_pct := qc 100 1;
     specialness_bp := qc 100 1;
     collateral_liquidity_score := qc 1 10;
     collateral_price_vol_20d_pct := qc 40 1;
     collateral_duration_years := qc 12 1;
     encumbrance_days := qc 90 1;
     margin_call_mild_musd := qc 15 1;
     margin_call_severe_musd := qc 30 1;
     wrong_way_risk_flag := 1%Qc;
     cross_ccy_flag := 1%Qc;
     ccp_cleared_flag := 0%Qc;
     days_to_maturity := qc 400 1 |}.

(** Derived rows of a distressed hedge fund and a plain dealer. *)
Definition distressed_rows : list DP.Row :=
  map (DP.derive_row sample_config)
      [distressed_trade; sample_trade "Dealer" "A" (qc 50 1)].

(** Two derived rows of one hedge fund. *)
Definition hedge_fund_rows : list DP.Row :=
  map (DP.derive_row sample_config)
      [distressed_trade; sample_trade "HedgeFund" "BB" (qc 100 1)].

(** Derived rows of a bank and a dealer whose trades have notional 0. *)
Definition zero_notional_rows : list DP.Row :=
  map (DP.derive_row sample_config)
      [sample_trade "Bank" "AA" 0%Qc; sample_trade "Dealer" "A" 0%Qc].

(** Binary64 rows whose sum in row order rounds to 0: [1e16 + 1] is [1e16]. *)
Definition rounding_rows : list Binary64.Row :=
  [("A", 1e16%float); ("B", 1%float); ("A", (-1e16)%float)].

(** Binary64 rows of four counterparty types whose notionals cancel exactly
    (2^53 + 2, its opposite, 1 and -1). *)
Definition cancelling_rows : list Binary64.Row :=
  [("A", 9007199254740994%float); ("B", (-9007199254740994)%float);
   ("C", 1%float); ("D", (-1)%float)].

(** * Properties *)

(** ** Order and arithmetic of [num] *)

Section NumFacts.
Local Open Scope num_scope.

Lemma qc_leb_le (a b : Qc) : qc_leb a b = true <-> (a <= b)%Qc.
Proof. unfold qc_leb, Qcle. apply Qle_bool_iff. Qed.

Lemma qc_ltb_lt (a b : Qc) : qc_ltb a b = true <-> (a < b)%Qc.
Proof.
  unfold qc_ltb, Qclt. rewrite negb_true_iff, <- not_true_iff_false, Qle_bool_iff.
  split; [apply Qnot_le_lt | apply Qlt_not_le].
Qed.

Lemma qc_eqb_eq (a b : Qc) : qc_eqb a b = true <-> a = b.
Proof.
  unfold qc_eqb. rewrite Qeq_bool_iff. split.
  - apply Qc_is_canon.
  - intros ->. reflexivity.
Qed.

Lemma eqb_eq (x y : num) : (x =? y) = true -> x = y.
Proof.
  destruct x, y; simpl; try congruence.
  by intros ->%qc_eqb_eq.
Qed.

Lemma leb_trans (x y z : num) :
  (x <=? y) = true -> (y <=? z) = true -> (x <=? z) = true.
Proof.
  destruct x, y, z; simpl; try congruence.
  rewrite !qc_leb_le. apply Qcle_trans.
Qed.

Lemma ltb_leb_trans (x y z : num) :
  (x <? y) = true -> (y <=? z) = true -> (x <? z) = true.
Proof.
  destruct x, y, z; simpl; try congruence.
  rewrite !qc_ltb_lt, qc_leb_le. apply Qclt_le_trans.
Qed.

Lemma ltb_trans (x y z : num) :
  (x <? y) = true -> (y <? z) = true -> (x <? z) = true.
Proof.
  destruct x, y, z; simpl; try congruence.
  rewrite !qc_ltb_lt. apply Qclt_trans.
Qed.

Lemma ltb_not_leb (x y : num) : (x <? y) = true -> (y <=? x) = false.
Proof.
  destruct x, y; simpl; try congruence.
  rewrite qc_ltb_lt, <- not_true_iff_false, qc_leb_le. apply Qclt_not_le.
Qed.

Lemma mul_comm (x y : num) : x * y = y * x.
Proof.
  destruct x, y; simpl; try reflexivity;
    try (f_equal; apply Qcmult_comm);
    repeat match goal with |- context [if ?c then _ else _] => destruct c end;
    reflexivity.
Qed.

Lemma add_nan_l (x : num) : NaN + x = NaN.
Proof. reflexivity. Qed.

Lemma add_nan_r (x : num) : x + NaN = NaN.
Proof. destruct x; reflexivity. Qed.

Lemma mul_nan_l (x : num) : NaN * x = NaN.
Proof. reflexivity. Qed.

Lemma div_nan_l (x : num) : NaN / x = NaN.
Proof. reflexivity. Qed.

Lemma leb_nan_l (x : num) : (NaN <=? x) = false.
Proof. reflexivity. Qed.

(** Python's [min(x, u)] and [clip(upper=u)] agree. *)
Lemma clip_upper_py_min (u x : num) : clip_upper u x = py_min x u.
Proof. reflexivity. Qed.

End NumFacts.

(** ** Risk category *)

Section RiskCategoryFacts.
Variable cfg : Config.
Local Open Scope num_scope.

Lemma assign_risk_category_monotone (s1 s2 : num) :
  (s1 <=? s2) = true ->
  (severity (DP.assign_risk_category cfg s1)
   <= severity (DP.assign_risk_category cfg s2))%nat.
Proof.
  intros Hle. unfold DP.assign_risk_category.
  destruct (s2 <=? threshold_low_risk cfg) eqn:H2l.
  { rewrite (leb_trans _ _ _ Hle H2l). done. }
  destruct (s2 <=? threshold_medium_risk cfg) eqn:H2m.
  { rewrite (leb_trans _ _ _ Hle H2m).
    destruct (s1 <=? threshold_low_risk cfg); simpl; lia. }
  destruct (s2 <=? threshold_high_risk cfg) eqn:H2h.
  { rewrite (leb_trans _ _ _ Hle H2h).
    destruct (s1 <=? threshold_low_risk cfg), (s1 <=? threshold_medium_risk cfg);
      simpl; lia. }
  repeat match goal with |- context [if ?c then _ else _] => destruct c end;
    simpl; lia.
Qed.

End RiskCategoryFacts.

(** C5.  With thresholds low < medium < high the category is found by
    walking the thresholds upwards, the first [score <= threshold] winning:
    Low up to the low threshold, Medium above it up to the medium one, High
    above that up to the high one, Critical above the high threshold.  The
    category is therefore a non-decreasing step function of the composite
    score: of two derived trades, the one with the lower (or equal) composite
    score never has the more severe category. *)
Theorem risk_category_step_function (cfg : Config)
    (Hlm : (threshold_low_risk cfg < threshold_medium_risk cfg)%Qc)
    (Hmh : (threshold_medium_risk cfg < threshold_high_risk cfg)%Qc) :
  (forall s : num,
      (s <=? threshold_low_risk cfg)%num = true ->
      DP.assign_risk_category cfg s = Low) /\
  (forall s : num,
      (threshold_low_risk cfg <? s)%num = true ->
      (s <=? threshold_medium_risk cfg)%num = true ->
      DP.assign_risk_category cfg s = Medium) /\
  (forall s : num,
      (threshold_medium_risk cfg <? s)%num = true ->
      (s <=? threshold_high_risk cfg)%num = true ->
      DP.assign_risk_category cfg s = High) /\
  (forall s : num,
      (threshold_high_risk cfg <? s)%num = true ->
      DP.assign_risk_category cfg s = Critical) /\
  (forall t1 t2 : Trade,
      let r1 := DP.derive_row cfg t1 in
      let r2 := DP.derive_row cfg t2 in
      DP.risk_category (DP.composite r1)
        = DP.assign_risk_category cfg (DP.composite_risk_score (DP.composite r1)) /\
      ((DP.composite_risk_score (DP.composite r1)
          <=? DP.composite_risk_score (DP.composite r2))%num = true ->
       (severity (DP.risk_category (DP.composite r1))
        <= severity (DP.risk_category (DP.composite r2)))%nat)).
Proof.
  assert (Hlm' : (Fin (threshold_low_risk cfg) <? threshold_medium_risk cfg)%num = true)
    by (simpl; by apply qc_ltb_lt).
  assert (Hmh' : (Fin (threshold_medium_risk cfg) <? threshold_high_risk cfg)%num = true)
    by (simpl; by apply qc_ltb_lt).
  repeat split.
  - intros s H. unfold DP.assign_risk_category. by rewrite H.
  - intros s Hlo Hme. unfold DP.assign_risk_category.
    by rewrite (ltb_not_leb _ _ Hlo), Hme.
  - intros s Hme Hhi. unfold DP.assign_risk_category.
    rewrite (ltb_not_leb _ _ Hme), Hhi.
    by rewrite (ltb_not_leb _ _ (ltb_trans _ _ _ Hlm' Hme)).
  - intros s Hhi. unfold DP.assign_risk_category.
    pose proof (ltb_trans _ _ _ Hmh' Hhi) as Hme.
    pose proof (ltb_trans _ _ _ Hlm' Hme) as Hlo.
    by rewrite (ltb_not_leb _ _ Hlo), (ltb_not_leb _ _ Hme), (ltb_not_leb _ _ Hhi).
  - intros Hle. simpl. by apply assign_risk_category_monotone.
Qed.

Lemma risk_category_step_function_witness :
  (threshold_low_risk sample_config < threshold_medium_risk sample_config)%Qc /\
  (threshold_medium_risk sample_config < threshold_high_risk sample_config)%Qc /\
  DP.assign_risk_category sample_config (4 # 10)%num = Medium /\
  DP.assign_risk_category sample_config (95 # 100)%num = Critical.
Proof.
  assert (Hlm : (threshold_low_risk sample_config
                 < threshold_medium_risk sample_config)%Qc) by (vm_compute; reflexivity).
  assert (Hmh : (threshold_medium_risk sample_config
                 < threshold_high_risk sample_config)%Qc) by (vm_compute; reflexivity).
  destruct (risk_category_step_function sample_config Hlm Hmh)
    as (_ & Hmed & _ & Hcrit & _).
  split; [exact Hlm | split; [exact Hmh | split; [apply Hmed | apply Hcrit]]];
    vm_compute; reflexivity.
Defined.

(** ** The high-risk vote *)

Lemma sum_bools_from (l : list bool) (acc : nat) :
  fold_left (fun a (b : bool) => (a + (if b then 1 else 0))%nat) l acc
  = (acc + CRA.sum_bools l)%nat.
Proof.
  unfold CRA.sum_bools. revert acc.
  induction l as [|b l IH]; intros acc; simpl; [lia|].
  rewrite IH, (IH (if b then 1 else 0)%nat). lia.
Qed.

Lemma sum_bools_cons (b : bool) (l : list bool) :
  CRA.sum_bools (b :: l) = (b2n b + CRA.sum_bools l)%nat.
Proof. unfold CRA.sum_bools at 1. simpl. rewrite sum_bools_from. by destruct b. Qed.

Lemma thirty_percent (n : nat) :
  (of_nat n * (30 # 100))%num = (of_nat n * (3 # 10))%num.
Proof. reflexivity. Qed.

Lemma sum_risk_criteria (cfg : Config) (p : Profile.t) :
  CRA.sum_bools (CRA.risk_criteria cfg p) = criteria_met cfg p.
Proof.
  unfold CRA.risk_criteria, criteria_met.
  rewrite !sum_bools_cons, thirty_percent. unfold CRA.sum_bools. simpl. lia.
Qed.

(** C4.  A profile is classified high-risk exactly when at least 3 of the 8
    criteria hold; 2 criteria are not enough and 3 are, and both boundary
    cases occur. *)
Theorem high_risk_iff_three_of_eight :
  (forall (cfg : Config) (p : Profile.t),
      (CRA._is_high_risk_counterparty cfg p = true <-> (3 <= criteria_met cfg p)%nat) /\
      (criteria_met cfg p = 2%nat -> CRA._is_high_risk_counterparty cfg p = false) /\
      (criteria_met cfg p = 3%nat -> CRA._is_high_risk_counterparty cfg p = true)) /\
  (exists (cfg : Config) (p : Profile.t),
      criteria_met cfg p = 2%nat /\ CRA._is_high_risk_counterparty cfg p = false) /\
  (exists (cfg : Config) (p : Profile.t),
      criteria_met cfg p = 3%nat /\ CRA._is_high_risk_counterparty cfg p = true).
Proof.
  split; [|split].
  - intros cfg p. unfold CRA._is_high_risk_counterparty.
    rewrite sum_risk_criteria. repeat split.
    + by intros ?%Nat.leb_le.
    + by intros ?%Nat.leb_le.
    + by intros ->.
    + by intros ->.
  - exists sample_config,
      (sample_profile (8 # 10)%num (95 # 100)%num (50 # 1)%num (1 # 10)%num 10 1 0).
    split; vm_compute; reflexivity.
  - exists sample_config,
      (sample_profile (8 # 10)%num (95 # 100)%num (50 # 1)%num (1 # 10)%num 10 1 1).
    split; vm_compute; reflexivity.
Qed.

(** ** Field derivation *)

(** Closed equations between numbers: compare the reduced fractions. *)
Ltac num_eq :=
  vm_compute;
  first [ reflexivity
        | apply (f_equal Fin); apply Qc_is_canon; vm_compute; reflexivity ].

(** [derive_risk_fields] returns, for loaded data, the rows derived one by
    one from the input rows; it raises only when no data is loaded. *)
Lemma derive_risk_fields_loaded (p : DP.t) (ts : list Trade) :
  DP.data p = Some ts ->
  exists p', DP.derive_risk_fields p = Ok (p', map (DP.derive_row (DP.config p)) ts)
             /\ DP.data p' = Some ts /\ DP.config p' = DP.config p.
Proof. intros H. unfold DP.derive_risk_fields. rewrite H. eauto. Qed.

(** C8.  For every trade the market score is
    0.4(1 - collateral quality) + 0.3 haircut score + 0.3 specialness score,
    the haircut and specialness scores being the plain ratios to the
    configured maxima; nothing is clamped, and a haircut above the maximum
    gives a haircut score and a market score above 1. *)
Theorem market_risk_score_formula_unclamped :
  (forall (cfg : Config) (t : Trade),
      let m := DP.market (DP.derive_row cfg t) in
      DP.haircut_risk_score m = (haircut_pct t / max_haircut_pct cfg)%num /\
      DP.specialness_risk_score m = (specialness_bp t / max_specialness_bp cfg)%num /\
      DP.market_risk_score m
      = ((4 # 10) * ((1 # 1) - DP.collateral_quality_score m)
         + (3 # 10) * DP.haircut_risk_score m
         + (3 # 10) * DP.specialness_risk_score m)%num) /\
  (exists (cfg : Config) (t : Trade),
      let m := DP.market (DP.derive_row cfg t) in
      (max_haircut_pct cfg < haircut_pct t)%Qc /\
      (DP.haircut_risk_score m >? 1 # 1)%num = true /\
      (DP.market_risk_score m >? 1 # 1)%num = true).
Proof.
  split.
  - intros cfg t m. subst m. split; [reflexivity | split; [reflexivity |]].
    by rewrite !(mul_comm (_ # 10)%num).
  - exists sample_config, outlier_haircut_trade.
    split; [|split]; vm_compute; reflexivity.
Qed.

(** C9.  The margin-call score is the sum of the two halves clamped to 1
    (the sum is clamped, not each half), the encumbrance score is the ratio
    clamped to 1, and the liquidity score is 0.6 encumbrance + 0.4 margin
    call. *)
Theorem liquidity_risk_score_formula :
  (forall (cfg : Config) (t : Trade),
      let l := DP.liquidity (DP.derive_row cfg t) in
      DP.margin_call_risk_score l
      = py_min ((5 # 10) * (margin_call_mild_musd t / max_mild_margin_call_musd cfg)
                + (5 # 10) * (margin_call_severe_musd t / max_severe_margin_call_musd cfg))%num
               (1 # 1)%num /\
      DP.encumbrance_risk_score l
      = py_min (encumbrance_days t / max_encumbrance_days cfg)%num (1 # 1)%num /\
      DP.liquidity_risk_score l
      = ((6 # 10) * DP.encumbrance_risk_score l
         + (4 # 10) * DP.margin_call_risk_score l)%num) /\
  (exists (cfg : Config) (t : Trade),
      let half_mild :=
        ((5 # 10) * (margin_call_mild_musd t / max_mild_margin_call_musd cfg))%num in
      let half_severe :=
        ((5 # 10) * (margin_call_severe_musd t / max_severe_margin_call_musd cfg))%num in
      DP.margin_call_risk_score (DP.liquidity (DP.derive_row cfg t)) = (1 # 1)%num /\
      (py_min half_mild (1 # 1) + py_min half_severe (1 # 1))%num = (2 # 1)%num).
Proof.
  split.
  - intros cfg t l. subst l. split; [| split].
    + by rewrite <- clip_upper_py_min, !(mul_comm (5 # 10)%num).
    + by rewrite <- clip_upper_py_min.
    + by rewrite (mul_comm (6 # 10)%num), (mul_comm (4 # 10)%num).
  - exists sample_config, outlier_haircut_trade. split; num_eq.
Qed.

(** ** Sums of finite columns *)

Section Sums.
Local Open Scope Qc_scope.

Lemma filter_fin (l : list Qc) :
  filter (fun x : num => is_nan x = false) (map Fin l) = map Fin l.
Proof.
  induction l as [|q l IH]; [done|].
  simpl. rewrite filter_cons_True by done. by rewrite IH.
Qed.

Lemma fold_add_fin (l : list Qc) (a : Qc) :
  fold_left add (map Fin l) (Fin a) = Fin (a + foldr Qcplus 0 l).
Proof.
  revert a. induction l as [|q l IH]; intros a; simpl.
  - f_equal. ring.
  - rewrite IH. f_equal. ring.
Qed.

Lemma col_sum_fin (l : list Qc) : col_sum (map Fin l) = Fin (foldr Qcplus 0 l).
Proof.
  unfold col_sum. rewrite filter_fin, fold_add_fin. f_equal. ring.
Qed.

End Sums.


Lemma notional_col_sum (data : list DP.Row) :
  col_sum (notional_col data) = Fin (rows_total data).
Proof.
  unfold notional_col, rows_total.
  change (map (fun r => Fin (notional_musd (DP.trade r))) data)
    with (map (fun r => Fin (row_notional r)) data).
  rewrite <- (map_map row_notional Fin). apply col_sum_fin.
Qed.

(** ** Grouping and sorting *)


Lemma insert_desc_perm (x : string * num) (l : list (string * num)) :
  insert_desc x l ≡ₚ x :: l.
Proof.
  induction l as [|y l IH]; simpl; [done|].
  destruct (goes_after (snd x) (snd y)); [|done].
  rewrite IH. apply Permutation_swap.
Qed.

Lemma sort_values_desc_perm (s : list (string * num)) : sort_values_desc s ≡ₚ s.
Proof.
  induction s as [|x s IH]; simpl; [done|].
  by rewrite insert_desc_perm, IH.
Qed.

(** ** The analysis never raises *)

Section AnalysisFacts.
Local Open Scope num_scope.

(** With a total of the exposures that is not positive every metric is the
    guard's 0; with a positive one there is a first exposure (the sum of an
    empty series is 0), so [iloc[0]] is in range. *)
Lemma concentration_metrics_ok (data : list DP.Row) :
  exists cm : ConcentrationMetrics,
    CRA._calculate_concentration_metrics data = Ok cm /\
    ((col_sum (map snd (counterparty_exposures data)) >? 0 # 1) = false ->
     top_5_concentration_pct cm = 0 # 1 /\
     herfindahl_hirschman_index cm = 0 # 1 /\
     largest_counterparty_pct cm = 0 # 1).
Proof.
  unfold CRA._calculate_concentration_metrics.
  fold (counterparty_exposures data).
  destruct (col_sum (map snd (counterparty_exposures data)) >? 0 # 1) eqn:Hpos.
  - destruct (counterparty_exposures data) as [|e es] eqn:Hs.
    + vm_compute in Hpos. discriminate.
    + simpl. eexists. split; [reflexivity | discriminate].
  - simpl. eexists. split; [reflexivity | done].
Qed.

Lemma analyze_groups_config gs (a : CRA.t) :
  CRA.config (fold_left CRA.analyze_group gs a) = CRA.config a.
Proof.
  revert a. induction gs as [|[k rs] gs IH]; intros a; simpl; [done|].
  by rewrite IH.
Qed.

Lemma analyze_groups_aggregates gs (a : CRA.t) :
  CRA.risk_aggregates (fold_left CRA.analyze_group gs a) = CRA.risk_aggregates a.
Proof.
  revert a. induction gs as [|[k rs] gs IH]; intros a; simpl; [done|].
  by rewrite IH.
Qed.

(** The profiles after the loop over the groups: those created in this
    run, laid over the ones the analyzer already held. *)
Lemma analyze_groups_profiles gs (a : CRA.t) :
  CRA.counterparty_profiles (fold_left CRA.analyze_group gs a)
  = CRA.counterparty_profiles
      (fold_left CRA.analyze_group gs (CRA.new (CRA.config a)))
    ∪ CRA.counterparty_profiles a.
Proof.
  assert (G : forall (b c : CRA.t) (m : gmap string Profile.t),
    CRA.config b = CRA.config c ->
    CRA.counterparty_profiles b = CRA.counterparty_profiles c ∪ m ->
    CRA.counterparty_profiles (fold_left CRA.analyze_group gs b)
    = CRA.counterparty_profiles (fold_left CRA.analyze_group gs c) ∪ m).
  { induction gs as [|[k rs] gs IH]; intros b c m Hc Hp; simpl; [done|].
    apply IH; simpl; [done|].
    rewrite Hp, Hc. apply insert_union_l. }
  apply G; simpl; [done|]. by rewrite (left_id_L ∅ (∪)).
Qed.

End AnalysisFacts.

Section AnalysisResult.
Local Open Scope num_scope.

(** The aggregates depend on the data only; the analyzer keeps its
    configuration and its list of high-risk counterparties, and every
    profile it holds gets its concentration ratio rewritten. *)
Lemma calculate_portfolio_aggregates_ok (data : list DP.Row) :
  exists (agg : Aggregates) (cm : ConcentrationMetrics),
    (forall self : CRA.t,
        CRA._calculate_portfolio_aggregates self data
        = Ok {| CRA.config := CRA.config self;
                CRA.counterparty_profiles :=
                  CRA.update_concentration_ratio (Fin (rows_total data))
                    <$> CRA.counterparty_profiles self;
                CRA.high_risk_counterparties := CRA.high_risk_counterparties self;
                CRA.risk_aggregates := Some agg |}) /\
    CRA._calculate_concentration_metrics data = Ok cm /\
    counterparty_concentration agg = cm /\
    total_portfolio_exposure agg = Fin (rows_total data) /\
    ((Fin (rows_total data) >? 0 # 1) = false ->
     high_risk_exposure_pct agg = 0 # 1 /\ critical_risk_exposure_pct agg = 0 # 1).
Proof.
  destruct (concentration_metrics_ok data) as (cm & Hcm & _).
  eexists _, cm. split; [|split; [exact Hcm|]].
  - intros self. unfold CRA._calculate_portfolio_aggregates.
    rewrite Hcm, notional_col_sum. simpl. reflexivity.
  - simpl. split; [done|]. split; [done|]. by intros ->.
Qed.

Lemma analyze_counterparties_ok (data : list DP.Row) :
  exists (agg : Aggregates) (cm : ConcentrationMetrics),
    (forall (a : CRA.t) (now : string),
        let looped := fold_left CRA.analyze_group (by_counterparty_type data) a in
        let profiles :=
          CRA.update_concentration_ratio (Fin (rows_total data))
            <$> CRA.counterparty_profiles looped in
        exists (rf : RiskFlags) (sm : Summary),
          CRA.analyze_counterparties a now data
          = Ok ({| CRA.config := CRA.config a;
                   CRA.counterparty_profiles := profiles;
                   CRA.high_risk_counterparties := CRA.high_risk_counterparties looped;
                   CRA.risk_aggregates := Some agg |},
                {| AnalysisResults.counterparty_profiles := profiles;
                   AnalysisResults.high_risk_counterparties :=
                     CRA.high_risk_counterparties looped;
                   AnalysisResults.portfolio_aggregates := agg;
                   AnalysisResults.risk_flags := rf;
                   AnalysisResults.summary := sm |})) /\
    CRA._calculate_concentration_metrics data = Ok cm /\
    counterparty_concentration agg = cm /\
    total_portfolio_exposure agg = Fin (rows_total data) /\
    ((Fin (rows_total data) >? 0 # 1) = false ->
     high_risk_exposure_pct agg = 0 # 1 /\ critical_risk_exposure_pct agg = 0 # 1).
Proof.
  destruct (calculate_portfolio_aggregates_ok data) as (agg & cm & Hcalc & Hrest).
  exists agg, cm. split; [|exact Hrest].
  intros a now looped profiles. subst profiles looped.
  unfold CRA.analyze_counterparties.
  rewrite Hcalc. simpl. rewrite analyze_groups_config.
  eexists _, _. reflexivity.
Qed.

End AnalysisResult.

(** ** Totals that are zero *)

Lemma updated_concentration_ratio (total : num) (p : Profile.t) :
  Profile.concentration_ratio (CRA.update_concentration_ratio total p)
  = (if total >? 0 # 1 then Profile.total_exposure p / total * (100 # 1)
     else 0 # 1)%num.
Proof. reflexivity. Qed.

(** The two totals of [rounding_rows] and of [cancelling_rows] in binary64.
    In row order the notionals of either add up to 0, so that the total
    exposure of the portfolio is 0 and the concentration ratios and the
    exposure percentages take the 0 of their guard.  The exposures per
    counterparty type, largest first, add up to 1 for the first rows (A has
    1e16 - 1e16 = 0, B has 1) and to 2 for the second ((2^53 + 2) + 1 and
    then - 1 round to 2^53 + 4): the guard of the concentration metrics
    holds, the HHI is 1 and above 1, the top-5 concentration is 100 and the
    share of the largest counterparty is 100 and above 100. *)
Lemma zero_portfolio_total_nonzero_concentration :
  (Binary64.total_portfolio rounding_rows = 0%float /\
   Binary64.pct_of_total_portfolio 1%float rounding_rows = 0%float /\
   exists cm : Binary64.ConcentrationMetrics,
     Binary64._calculate_concentration_metrics rounding_rows = Ok cm /\
     Binary64.herfindahl_hirschman_index cm = 1%float /\
     Binary64.top_5_concentration_pct cm = 100%float /\
     Binary64.largest_counterparty_pct cm = 100%float /\
     Binary64.largest_counterparty cm = Some "B") /\
  (Binary64.total_portfolio cancelling_rows = 0%float /\
   Binary64.pct_of_total_portfolio 1%float cancelling_rows = 0%float /\
   exists cm : Binary64.ConcentrationMetrics,
     Binary64._calculate_concentration_metrics cancelling_rows = Ok cm /\
     PrimFloat.ltb 1%float (Binary64.herfindahl_hirschman_index cm) = true /\
     Binary64.top_5_concentration_pct cm = 100%float /\
     PrimFloat.ltb 100%float (Binary64.largest_counterparty_pct cm) = true /\
     Binary64.largest_counterparty cm = Some "A").
Proof.
  split.
  - split; [vm_compute; reflexivity|]. split; [vm_compute; reflexivity|].
    eexists. split; [vm_compute; reflexivity|]. cbn.
    repeat split; vm_compute; reflexivity.
  - split; [vm_compute; reflexivity|]. split; [vm_compute; reflexivity|].
    eexists. split; [vm_compute; reflexivity|]. cbn.
    repeat split; vm_compute; reflexivity.
Qed.

(** In binary64 too the concentration metrics are computed for every data
    and are 0 when the total of the exposures is not positive. *)
Lemma binary64_concentration_metrics_guarded (data : list Binary64.Row) :
  exists cm : Binary64.ConcentrationMetrics,
    Binary64._calculate_concentration_metrics data = Ok cm /\
    (PrimFloat.ltb 0%float
       (Binary64.series_sum (map snd (Binary64.counterparty_exposures data))) = false ->
     Binary64.top_5_concentration_pct cm = 0%float /\
     Binary64.herfindahl_hirschman_index cm = 0%float /\
     Binary64.largest_counterparty_pct cm = 0%float).
Proof.
  unfold Binary64._calculate_concentration_metrics.
  destruct (PrimFloat.ltb 0%float _) eqn:Hpos.
  - destruct (Binary64.counterparty_exposures data) as [|e es] eqn:Hs.
    + vm_compute in Hpos. discriminate.
    + simpl. eexists. split; [reflexivity | discriminate].
  - simpl. eexists. split; [reflexivity | done].
Qed.

(** C6, as the code has it.  The analysis returns (no exception) whatever
    the data.  When the sum of the notional column is zero, every profile the
    analyzer holds has concentration ratio 0 and the high- and critical-risk
    exposure percentages are 0.  When the exposures per counterparty type,
    added up largest first, give zero -- this is the total by which
    [_calculate_concentration_metrics] divides --, the HHI, the top-5
    concentration and the share of the largest counterparty are 0. *)
Theorem zero_totals_yield_zero_ratios
    (a : CRA.t) (now : string) (data : list DP.Row) :
  exists (a' : CRA.t) (r : AnalysisResults.t),
    CRA.analyze_counterparties a now data = Ok (a', r) /\
    (col_sum (notional_col data) = Fin 0%Qc ->
     (forall (k : string) (p : Profile.t),
         AnalysisResults.counterparty_profiles r !! k = Some p ->
         Profile.concentration_ratio p = (0 # 1)%num) /\
     high_risk_exposure_pct (AnalysisResults.portfolio_aggregates r) = (0 # 1)%num /\
     critical_risk_exposure_pct (AnalysisResults.portfolio_aggregates r)
     = (0 # 1)%num) /\
    (col_sum (map snd (counterparty_exposures data)) = Fin 0%Qc ->
     let cm := counterparty_concentration (AnalysisResults.portfolio_aggregates r) in
     herfindahl_hirschman_index cm = (0 # 1)%num /\
     top_5_concentration_pct cm = (0 # 1)%num /\
     largest_counterparty_pct cm = (0 # 1)%num).
Proof.
  destruct (analyze_counterparties_ok data)
    as (agg & cm & Hrun & Hcm & Hconc & _ & Hpct).
  destruct (Hrun a now) as (rf & sm & Heq).
  destruct (concentration_metrics_ok data) as (cm' & Hcm' & Hzeros).
  assert (cm' = cm) as -> by congruence.
  eexists _, _. split; [exact Heq|]. simpl. split.
  - intros Hzero. rewrite notional_col_sum in Hzero.
    assert (Hguard : (Fin (rows_total data) >? 0 # 1)%num = false)
      by (rewrite Hzero; reflexivity).
    split; [|exact (Hpct Hguard)].
    intros k p. rewrite lookup_fmap.
    destruct (_ !! k) as [p0|]; simpl; [|done].
    intros [= <-]. by rewrite updated_concentration_ratio, Hguard.
  - intros Hzero. rewrite Hconc.
    assert (Hguard : (col_sum (map snd (counterparty_exposures data)) >? 0 # 1)%num
                     = false) by (rewrite Hzero; reflexivity).
    destruct (Hzeros Hguard) as (Htop & Hhhi & Hlargest). done.
Qed.

Lemma zero_totals_yield_zero_ratios_witness :
  col_sum (notional_col zero_notional_rows) = Fin 0%Qc /\
  col_sum (map snd (counterparty_exposures zero_notional_rows)) = Fin 0%Qc /\
  exists (a' : CRA.t) (r : AnalysisResults.t),
    CRA.analyze_counterparties (CRA.new sample_config) "2024-01-01 00:00:00"
      zero_notional_rows = Ok (a', r) /\
    high_risk_exposure_pct (AnalysisResults.portfolio_aggregates r) = (0 # 1)%num /\
    herfindahl_hirschman_index
      (counterparty_concentration (AnalysisResults.portfolio_aggregates r))
    = (0 # 1)%num.
Proof.
  assert (H1 : col_sum (notional_col zero_notional_rows) = Fin 0%Qc)
    by (vm_compute; reflexivity).
  assert (H2 : col_sum (map snd (counterparty_exposures zero_notional_rows)) = Fin 0%Qc)
    by (vm_compute; reflexivity).
  split; [exact H1|]. split; [exact H2|].
  destruct (zero_totals_yield_zero_ratios
              (CRA.new sample_config) "2024-01-01 00:00:00" zero_notional_rows)
    as (a' & r & Hrun & Hrow & Hgrp).
  exists a', r. split; [exact Hrun|].
  split; [exact (proj1 (proj2 (Hrow H1))) | exact (proj1 (Hgrp H2))].
Defined.

(** ** Counts of high- and critical-risk trades *)

Lemma count_true_cons (b : bool) (l : list bool) :
  count_true (b :: l) = (b2n b + count_true l)%nat.
Proof.
  unfold count_true. destruct b.
  - by rewrite filter_cons_True.
  - by rewrite filter_cons_False.
Qed.

Lemma risk_counts_ordered (col : list num) :
  (count_true (map (fun s => s >? 9 # 10)%num col)
   <= count_true (map (fun s => s >? 7 # 10)%num col))%nat /\
  (count_true (map (fun s => s >? 7 # 10)%num col) <= length col)%nat.
Proof.
  induction col as [|s col [IH1 IH2]]; [split; vm_compute; lia|].
  cbn [map length]. rewrite !count_true_cons.
  destruct (s >? 9 # 10)%num eqn:H9.
  - assert (H7 : (s >? 7 # 10)%num = true).
    { unfold gtb in *. by apply (ltb_trans _ (9 # 10)%num). }
    rewrite H7. cbn [b2n]. lia.
  - destruct (s >? 7 # 10)%num; cbn [b2n]; lia.
Qed.


Lemma create_profile_counts_ordered (cfg : Config) (k : string) (rows : list DP.Row) :
  counts_ordered (CRA._create_counterparty_profile cfg k rows).
Proof.
  unfold counts_ordered. simpl.
  destruct (risk_counts_ordered (composite_col rows)) as [H1 H2].
  split; [exact H1|]. unfold composite_col in H2 at 2.
  by rewrite length_map in H2.
Qed.

Lemma analyze_groups_counts_ordered gs (a : CRA.t) :
  map_Forall (fun _ p => counts_ordered p) (CRA.counterparty_profiles a) ->
  map_Forall (fun _ p => counts_ordered p)
             (CRA.counterparty_profiles (fold_left CRA.analyze_group gs a)).
Proof.
  revert a. induction gs as [|[k rs] gs IH]; intros a Ha; simpl; [done|].
  apply IH. simpl. apply map_Forall_insert_2; [|done].
  apply create_profile_counts_ordered.
Qed.

(** C10.  In every profile that an analysis produces,
    0 <= critical_risk_trades <= high_risk_trades <= trade_count. *)
Theorem profile_risk_counts_ordered
    (cfg : Config) (now : string) (data : list DP.Row)
    (a' : CRA.t) (r : AnalysisResults.t) :
  CRA.analyze_counterparties (CRA.new cfg) now data = Ok (a', r) ->
  forall (k : string) (p : Profile.t),
    AnalysisResults.counterparty_profiles r !! k = Some p ->
    (0 <= Profile.critical_risk_trades p)%nat /\
    (Profile.critical_risk_trades p <= Profile.high_risk_trades p)%nat /\
    (Profile.high_risk_trades p <= Profile.trade_count p)%nat.
Proof.
  intros Hrun k p Hp.
  destruct (analyze_counterparties_ok data) as (agg & cm & Hok & _).
  destruct (Hok (CRA.new cfg) now) as (rf & sm & Heq).
  rewrite Heq in Hrun. injection Hrun as <- <-. simpl in Hp.
  rewrite lookup_fmap in Hp.
  destruct (_ !! k) as [p0|] eqn:Hp0; simpl in Hp; [|done].
  injection Hp as <-.
  assert (H0 : counts_ordered p0).
  { eapply (analyze_groups_counts_ordered _ (CRA.new cfg)); [|exact Hp0].
    simpl. apply map_Forall_empty. }
  destruct H0 as [H1 H2]. simpl. split; [lia|]. by split.
Qed.

Lemma profile_risk_counts_ordered_witness :
  exists (a' : CRA.t) (r : AnalysisResults.t),
    CRA.analyze_counterparties (CRA.new sample_config) "2024-01-01 00:00:00" sample_rows
    = Ok (a', r) /\
    forall (k : string) (p : Profile.t),
      AnalysisResults.counterparty_profiles r !! k = Some p ->
      (0 <= Profile.critical_risk_trades p)%nat /\
      (Profile.critical_risk_trades p <= Profile.high_risk_trades p)%nat /\
      (Profile.high_risk_trades p <= Profile.trade_count p)%nat.
Proof.
  assert (H : exists a' r,
    CRA.analyze_counterparties (CRA.new sample_config) "2024-01-01 00:00:00" sample_rows
    = Ok (a', r)) by (vm_compute; eauto).
  destruct H as (a' & r & H). exists a', r. split; [exact H|].
  exact (profile_risk_counts_ordered sample_config _ sample_rows a' r H).
Defined.

(** ** Determinism *)

Lemma update_concentration_ratio_idemp (total : num) (p : Profile.t) :
  CRA.update_concentration_ratio total (CRA.update_concentration_ratio total p)
  = CRA.update_concentration_ratio total p.
Proof. reflexivity. Qed.

Lemma fmap_update_idemp (total : num) (m : gmap string Profile.t) :
  CRA.update_concentration_ratio total <$> (CRA.update_concentration_ratio total <$> m)
  = CRA.update_concentration_ratio total <$> m.
Proof.
  rewrite <- map_fmap_compose. apply map_fmap_ext.
  intros k q _. apply update_concentration_ratio_idemp.
Qed.

(** Running the loop and the back-fill again, on an analyzer that holds the
    profiles of a first run over the same groups, gives the same profiles. *)
Lemma rerun_profiles gs (total : num) (a a1 : CRA.t) :
  CRA.config a1 = CRA.config a ->
  CRA.counterparty_profiles a1
  = CRA.update_concentration_ratio total
      <$> CRA.counterparty_profiles (fold_left CRA.analyze_group gs a) ->
  CRA.update_concentration_ratio total
    <$> CRA.counterparty_profiles (fold_left CRA.analyze_group gs a1)
  = CRA.update_concentration_ratio total
      <$> CRA.counterparty_profiles (fold_left CRA.analyze_group gs a).
Proof.
  intros Hcfg Hprof.
  rewrite (analyze_groups_profiles gs a1), (analyze_groups_profiles gs a) in *.
  rewrite Hcfg, Hprof, !map_fmap_union, !fmap_update_idemp.
  by rewrite (assoc_L (∪)), (idemp_L (∪)).
Qed.

(** C7.  Two runs of the pipeline on the same loaded data and the same
    configuration give the same counterparty profiles and the same portfolio
    aggregates, whether the second run starts from the objects as they were
    or from the processor and the analyzer that the first run left behind;
    every run returns. *)
Theorem pipeline_deterministic
    (p : DP.t) (a : CRA.t) (ts : list Trade) (now1 now2 : string) :
  DP.data p = Some ts ->
  exists (p1 p2 p3 : DP.t) (a1 a2 a3 : CRA.t) (r1 r2 r3 : AnalysisResults.t),
    run_pipeline p a now1 = Ok (p1, a1, r1) /\
    run_pipeline p a now2 = Ok (p2, a2, r2) /\
    run_pipeline p1 a1 now2 = Ok (p3, a3, r3) /\
    AnalysisResults.counterparty_profiles r2 = AnalysisResults.counterparty_profiles r1 /\
    AnalysisResults.portfolio_aggregates r2 = AnalysisResults.portfolio_aggregates r1 /\
    AnalysisResults.counterparty_profiles r3 = AnalysisResults.counterparty_profiles r1 /\
    AnalysisResults.portfolio_aggregates r3 = AnalysisResults.portfolio_aggregates r1.
Proof.
  intros Hdata.
  destruct (derive_risk_fields_loaded p ts Hdata) as (p1 & Hd1 & Hdata1 & Hcfg1).
  destruct (derive_risk_fields_loaded p1 ts Hdata1) as (p3 & Hd3 & _ & _).
  rewrite Hcfg1 in Hd3.
  set (rows := map (DP.derive_row (DP.config p)) ts) in *.
  destruct (analyze_counterparties_ok rows) as (agg & cm & Hrun & _).
  destruct (Hrun a now1) as (rf1 & sm1 & H1).
  destruct (Hrun a now2) as (rf2 & sm2 & H2).
  match type of H1 with _ = Ok (?x, _) => set (a1 := x) in * end.
  destruct (Hrun a1 now2) as (rf3 & sm3 & H3).
  unfold run_pipeline.
  eexists p1, p1, p3, a1, _, _, _, _, _.
  rewrite Hd1, Hd3. simpl. rewrite H1, H2, H3. simpl.
  split; [reflexivity|]. split; [reflexivity|]. split; [reflexivity|].
  split; [reflexivity|]. split; [reflexivity|]. split; [|reflexivity].
  by apply rerun_profiles.
Qed.

Lemma pipeline_deterministic_witness :
  DP.data sample_processor
  = Some [sample_trade "Dealer" "BBB" (qc 50 1);
          sample_trade "Bank" "NR" (qc 50 1);
          sample_trade "Dealer" "B" (qc 10 1)] /\
  exists (p1 p2 p3 : DP.t) (a1 a2 a3 : CRA.t) (r1 r2 r3 : AnalysisResults.t),
    run_pipeline sample_processor (CRA.new sample_config) "2024-01-01 09:00:00"
    = Ok (p1, a1, r1) /\
    run_pipeline sample_processor (CRA.new sample_config) "2024-01-02 09:00:00"
    = Ok (p2, a2, r2) /\
    run_pipeline p1 a1 "2024-01-02 09:00:00" = Ok (p3, a3, r3) /\
    AnalysisResults.counterparty_profiles r2 = AnalysisResults.counterparty_profiles r1 /\
    AnalysisResults.portfolio_aggregates r2 = AnalysisResults.portfolio_aggregates r1 /\
    AnalysisResults.counterparty_profiles r3 = AnalysisResults.counterparty_profiles r1 /\
    AnalysisResults.portfolio_aggregates r3 = AnalysisResults.portfolio_aggregates r1.
Proof.
  split; [reflexivity|].
  eapply (pipeline_deterministic sample_processor (CRA.new sample_config) _
            "2024-01-01 09:00:00" "2024-01-02 09:00:00").
  reflexivity.
Defined.

(** ** Ratings the weight table does not map *)

Lemma unmapped_rating_credit_fields (cfg : Config) (t : Trade) :
  rating_weights cfg !! counterparty_rating t = None ->
  DP.rating_risk_weight (DP._derive_credit_risk_fields cfg t) = NaN /\
  DP.credit_risk_score (DP._derive_credit_risk_fields cfg t) = NaN.
Proof.
  intros H. unfold DP._derive_credit_risk_fields, DP.series_map. rewrite H. done.
Qed.

(** The claim that an unmapped rating aborts the run fails on the sample
    processor: "NR" is not a key of the table, and the derivation returns
    three rows, the one of the NR trade with a NaN credit score. *)
Lemma unmapped_rating_does_not_raise :
  rating_weights (DP.config sample_processor) !! "NR" = None /\
  (forall e : exn, DP.derive_risk_fields sample_processor <> Raise e) /\
  exists (p' : DP.t) (r1 r2 r3 : DP.Row),
    DP.derive_risk_fields sample_processor = Ok (p', [r1; r2; r3]) /\
    counterparty_rating (DP.trade r2) = "NR" /\
    DP.credit_risk_score (DP.credit r2) = NaN.
Proof.
  split; [vm_compute; reflexivity|]. split; [intros e; discriminate|].
  eexists _, _, _, _. split; [reflexivity|]. split; reflexivity.
Qed.

(** C1, as the code has it.  A trade whose rating is not a key of the weight
    table does not make the derivation fail: the run returns a row for every
    trade, and the row of that trade has NaN as rating weight and as credit
    score, hence a NaN composite score, which is categorised Critical. *)
Theorem unmapped_rating_yields_nan (p : DP.t) (ts : list Trade) (t : Trade) :
  DP.data p = Some ts ->
  In t ts ->
  rating_weights (DP.config p) !! counterparty_rating t = None ->
  exists (p' : DP.t) (rows : list DP.Row),
    DP.derive_risk_fields p = Ok (p', rows) /\
    length rows = length ts /\
    exists row : DP.Row,
      In row rows /\ DP.trade row = t /\
      DP.rating_risk_weight (DP.credit row) = NaN /\
      DP.credit_risk_score (DP.credit row) = NaN /\
      DP.composite_risk_score (DP.composite row) = NaN /\
      DP.risk_category (DP.composite row) = Critical.
Proof.
  intros Hdata Hin Hnone.
  destruct (derive_risk_fields_loaded p ts Hdata) as (p' & Hrun & _).
  destruct (unmapped_rating_credit_fields _ _ Hnone) as [Hw Hc].
  exists p', (map (DP.derive_row (DP.config p)) ts).
  split; [exact Hrun|]. split; [apply length_map|].
  exists (DP.derive_row (DP.config p) t).
  split; [by apply in_map|]. split; [reflexivity|].
  split; [exact Hw|]. split; [exact Hc|].
  assert (Hcomp : DP.composite_risk_score
                    (DP.composite (DP.derive_row (DP.config p) t)) = NaN).
  { unfold DP.derive_row, DP._calculate_composite_risk_score.
    cbn [DP.composite DP.composite_risk_score]. by rewrite Hc. }
  split; [exact Hcomp|].
  change (DP.risk_category (DP.composite (DP.derive_row (DP.config p) t)))
    with (DP.assign_risk_category (DP.config p)
            (DP.composite_risk_score (DP.composite (DP.derive_row (DP.config p) t)))).
  by rewrite Hcomp.
Qed.

Lemma unmapped_rating_yields_nan_witness :
  DP.data sample_processor
  = Some [sample_trade "Dealer" "BBB" (qc 50 1);
          sample_trade "Bank" "NR" (qc 50 1);
          sample_trade "Dealer" "B" (qc 10 1)] /\
  rating_weights (DP.config sample_processor) !! "NR" = None /\
  exists (p' : DP.t) (rows : list DP.Row),
    DP.derive_risk_fields sample_processor = Ok (p', rows) /\
    length rows = 3%nat /\
    exists row : DP.Row,
      In row rows /\ DP.trade row = sample_trade "Bank" "NR" (qc 50 1) /\
      DP.rating_risk_weight (DP.credit row) = NaN /\
      DP.credit_risk_score (DP.credit row) = NaN /\
      DP.composite_risk_score (DP.composite row) = NaN /\
      DP.risk_category (DP.composite row) = Critical.
Proof.
  split; [reflexivity|]. split; [vm_compute; reflexivity|].
  eapply (unmapped_rating_yields_nan sample_processor
            [sample_trade "Dealer" "BBB" (qc 50 1);
             sample_trade "Bank" "NR" (qc 50 1);
             sample_trade "Dealer" "B" (qc 10 1)]
            (sample_trade "Bank" "NR" (qc 50 1))).
  - reflexivity.
  - simpl. right. left. reflexivity.
  - vm_compute. reflexivity.
Defined.

(** ** The rating flag *)

Ltac try_grade g :=
  exists g; split; [vm_compute; tauto | vm_compute; discriminate].

Ltac differing_grade :=
  first
    [ try_grade "AAA" | try_grade "AA" | try_grade "A" | try_grade "BBB"
    | try_grade "BB" | try_grade "B" | try_grade "CCC" | try_grade "CC"
    | try_grade "C" | try_grade "D" ].

(** C2, evaluated.  The per-trade flag is Python's string comparison of the
    rating with the threshold.  With the threshold BB it flags BBB, a better
    grade, and does not flag B, a worse one; the counterparty flag
    HIGH_RISK_RATING follows it.  For every threshold grade other than D
    some grade is flagged differently from the order AAA ... D. *)
Theorem rating_flag_is_string_comparison :
  (forall (cfg : Config) (t : Trade),
      DP.high_risk_rating_flag (DP.credit (DP.derive_row cfg t))
      = str_ge (counterparty_rating t) (high_risk_rating_threshold cfg)) /\
  (str_ge "BBB" "BB" = true /\ at_or_past "BBB" "BB" = false) /\
  (str_ge "B" "BB" = false /\ at_or_past "B" "BB" = true) /\
  In "HIGH_RISK_RATING"
     (Profile.risk_flags
        (CRA._create_counterparty_profile sample_config "Dealer"
           [DP.derive_row sample_config (sample_trade "Dealer" "BBB" (qc 50 1))])) /\
  ~ In "HIGH_RISK_RATING"
      (Profile.risk_flags
         (CRA._create_counterparty_profile sample_config "Dealer"
            [DP.derive_row sample_config (sample_trade "Dealer" "B" (qc 50 1))])) /\
  Forall (fun threshold =>
            threshold = "D" \/
            exists g : string,
              In g rating_grades /\ str_ge g threshold <> at_or_past g threshold)
         rating_grades.
Proof.
  split; [reflexivity|].
  split; [split; vm_compute; reflexivity|].
  split; [split; vm_compute; reflexivity|].
  split; [vm_compute; tauto|].
  split; [intros H; vm_compute in H; intuition discriminate|].
  unfold rating_grades.
  repeat (constructor; [first [left; reflexivity | right; differing_grade]|]).
  constructor.
Qed.

(** ** The concentration flag *)

Lemma in_append_if (c : bool) (flag f : string) (flags : list string) :
  In f (CRA.append_if c flag flags) <-> In f flags \/ (c = true /\ flag = f).
Proof.
  unfold CRA.append_if. destruct c.
  - rewrite in_app_iff. simpl. intuition.
  - intuition discriminate.
Qed.

(** The flag HIGH_CONCENTRATION is decided on the ratio passed in. *)
Lemma high_concentration_flag (cfg : Config) (data : list DP.Row)
    (total_exposure concentration_ratio : num) :
  In "HIGH_CONCENTRATION"
     (CRA._generate_counterparty_risk_flags cfg data total_exposure concentration_ratio)
  <-> (concentration_ratio >? single_counterparty_limit_pct cfg)%num = true.
Proof.
  unfold CRA._generate_counterparty_risk_flags.
  rewrite !in_append_if. simpl. intuition discriminate.
Qed.

(** C3, evaluated.  The flags of a profile are computed when the profile is
    created, from the ratio of the group to its own total (100 for a group
    of positive exposure), and the back-fill of the true ratio leaves them
    as they are.  On the sample rows the bank has 50 of 110, which is under
    the limit of 60, and is flagged HIGH_CONCENTRATION. *)
Theorem high_concentration_flag_uses_group_ratio :
  (forall (cfg : Config) (k : string) (rows : list DP.Row) (total : num),
      let created := CRA._create_counterparty_profile cfg k rows in
      Profile.risk_flags (CRA.update_concentration_ratio total created)
        = Profile.risk_flags created /\
      (In "HIGH_CONCENTRATION" (Profile.risk_flags created) <->
       (Profile.concentration_ratio created >? single_counterparty_limit_pct cfg)%num
       = true) /\
      ((col_sum (notional_col rows) >? 0 # 1)%num = true ->
       (Profile.concentration_ratio created <=? 100 # 1)%num = true /\
       (Profile.concentration_ratio created >=? 100 # 1)%num = true)) /\
  exists (a' : CRA.t) (r : AnalysisResults.t) (p : Profile.t),
    CRA.analyze_counterparties (CRA.new sample_config) "2024-01-01 00:00:00" sample_rows
    = Ok (a', r) /\
    AnalysisResults.counterparty_profiles r !! "Bank" = Some p /\
    Profile.total_exposure p = (50 # 1)%num /\
    total_portfolio_exposure (AnalysisResults.portfolio_aggregates r) = (110 # 1)%num /\
    Profile.concentration_ratio p = (500 # 11)%num /\
    (Profile.concentration_ratio p >? single_counterparty_limit_pct sample_config)%num
    = false /\
    In "HIGH_CONCENTRATION" (Profile.risk_flags p).
Proof.
  split.
  - intros cfg k rows total created. subst created.
    split; [reflexivity|]. split; [apply high_concentration_flag|].
    intros Hpos.
    change (Profile.concentration_ratio (CRA._create_counterparty_profile cfg k rows))
      with (if col_sum (notional_col rows) >? 0 # 1
            then col_sum (notional_col rows) / col_sum (notional_col rows) * (100 # 1)
            else 0 # 1)%num.
    rewrite Hpos. rewrite notional_col_sum in *.
    simpl in Hpos. apply qc_ltb_lt in Hpos.
    assert (Hne : rows_total rows <> 0%Qc).
    { intros Heq. apply (Qclt_not_eq _ _ Hpos). by rewrite Heq. }
    simpl. destruct (qc_eqb (rows_total rows) 0) eqn:Hz.
    { by apply qc_eqb_eq in Hz. }
    assert (Hq : (rows_total rows / rows_total rows * Q2Qc (100 # 1))%Qc = Q2Qc (100 # 1)).
    { field. exact Hne. }
    simpl. rewrite Hq. split; vm_compute; reflexivity.
  - assert (H : exists a' r,
      CRA.analyze_counterparties (CRA.new sample_config) "2024-01-01 00:00:00" sample_rows
      = Ok (a', r) /\
      exists p, AnalysisResults.counterparty_profiles r !! "Bank" = Some p /\
        (Profile.total_exposure p =? 50 # 1)%num = true /\
        (total_portfolio_exposure (AnalysisResults.portfolio_aggregates r) =? 110 # 1)%num
        = true /\
        (Profile.concentration_ratio p =? 500 # 11)%num = true /\
        (Profile.concentration_ratio p >? single_counterparty_limit_pct sample_config)%num
        = false /\
        existsb (String.eqb "HIGH_CONCENTRATION") (Profile.risk_flags p) = true).
    { vm_compute. eexists _, _. split; [reflexivity|].
      eexists. split; [reflexivity|]. repeat split. }
    destruct H as (a' & r & Hrun & p & Hp & He & Ht & Hr & Hc & Hf).
    exists a', r, p.
    split; [exact Hrun|]. split; [exact Hp|].
    split; [by apply eqb_eq|]. split; [by apply eqb_eq|]. split; [by apply eqb_eq|].
    split; [exact Hc|].
    apply existsb_exists in Hf as (f & Hin & Heq).
    apply String.eqb_eq in Heq. by subst f.
Qed.

(** * Further properties *)

(** ** Bounds of the derived scores *)

Section Bounds.
Local Open Scope num_scope.

Lemma ltb_irrefl (x : num) : (x <? x) = false.
Proof.
  destruct x; simpl; try reflexivity.
  unfold qc_ltb. rewrite negb_false_iff. apply Qle_bool_iff, Qle_refl.
Qed.

Lemma clip_upper_bound (u x : num) : (clip_upper u x >? u) = false.
Proof.
  unfold clip_upper. destruct (x >? u) eqn:H; [|exact H].
  unfold gtb. apply ltb_irrefl.
Qed.

Lemma not_gtb_one_cases (x : num) :
  (x >? 1 # 1) = false ->
  (exists a : Qc, x = Fin a /\ (a <= 1)%Qc) \/ x = NInf \/ x = NaN.
Proof.
  destruct x as [a| | |]; simpl; intros H; try discriminate; auto.
  left. exists a. split; [done|].
  unfold gtb in H. simpl in H.
  apply not_true_iff_false in H. rewrite qc_ltb_lt in H.
  by apply Qcnot_lt_le in H.
Qed.

(** A weighted sum of two scores that do not exceed 1, with positive
    weights adding up to 1, does not exceed 1. *)
Lemma weighted_pair_bound (x y : num) (wx wy : Qc) :
  (0 < wx)%Qc -> (0 < wy)%Qc -> (wx + wy = 1)%Qc ->
  (x >? 1 # 1) = false -> (y >? 1 # 1) = false ->
  (x * wx + y * wy >? 1 # 1) = false.
Proof.
  intros Hwx Hwy Hsum Hx Hy.
  assert (Sx : qc_ltb 0%Qc wx = true) by by apply qc_ltb_lt.
  assert (Sy : qc_ltb 0%Qc wy = true) by by apply qc_ltb_lt.
  destruct (not_gtb_one_cases x Hx) as [(a & -> & Ha)|[-> | ->]];
    destruct (not_gtb_one_cases y Hy) as [(b & -> & Hb)|[-> | ->]];
    simpl; rewrite ?Sx, ?Sy; simpl; try reflexivity.
  unfold gtb. simpl. apply not_true_iff_false. rewrite qc_ltb_lt.
  apply Qcle_not_lt.
  assert (E : (1 * wx + 1 * wy = 1)%Qc) by (transitivity (wx + wy)%Qc; [ring | exact Hsum]).
  change (Q2Qc (1 # 1)) with 1%Qc. rewrite <- E.
  apply Qcplus_le_compat; apply Qcmult_le_compat_r; auto using Qclt_le_weak.
Qed.

End Bounds.

(** X1.  The encumbrance score, the margin-call score and the liquidity
    score of a trade never exceed 1, whatever the inputs and the configured
    maxima. *)
Theorem liquidity_scores_at_most_one (cfg : Config) (t : Trade) :
  let l := DP._derive_liquidity_risk_fields cfg t in
  (DP.encumbrance_risk_score l >? 1 # 1)%num = false /\
  (DP.margin_call_risk_score l >? 1 # 1)%num = false /\
  (DP.liquidity_risk_score l >? 1 # 1)%num = false.
Proof.
  intros l. subst l.
  assert (He : (DP.encumbrance_risk_score (DP._derive_liquidity_risk_fields cfg t)
                >? 1 # 1)%num = false) by apply clip_upper_bound.
  assert (Hm : (DP.margin_call_risk_score (DP._derive_liquidity_risk_fields cfg t)
                >? 1 # 1)%num = false) by apply clip_upper_bound.
  split; [exact He|]. split; [exact Hm|].
  apply (weighted_pair_bound _ _ (Q2Qc (6 # 10)) (Q2Qc (4 # 10))); try done.
  apply Qc_is_canon. reflexivity.
Qed.

(** X2.  The maturity score and the term score of a trade never exceed 1;
    an open repo has term score 0.7 maturity + 0.3 and any other term type
    0.7 maturity. *)
Theorem term_scores_at_most_one (cfg : Config) (t : Trade) :
  let tm := DP._derive_term_risk_fields cfg t in
  (DP.maturity_risk_score tm >? 1 # 1)%num = false /\
  (DP.term_risk_score tm >? 1 # 1)%num = false /\
  (term_type t = "Open" ->
   DP.term_risk_score tm
   = (DP.maturity_risk_score tm * (7 # 10) + (1 # 1) * (3 # 10))%num) /\
  (term_type t <> "Open" ->
   DP.term_risk_score tm
   = (DP.maturity_risk_score tm * (7 # 10) + (0 # 1) * (3 # 10))%num).
Proof.
  intros tm. subst tm.
  assert (Hm : (DP.maturity_risk_score (DP._derive_term_risk_fields cfg t)
                >? 1 # 1)%num = false) by apply clip_upper_bound.
  split; [exact Hm|]. split; [|split].
  - apply (weighted_pair_bound _ _ (Q2Qc (7 # 10)) (Q2Qc (3 # 10))); try done.
    + apply Qc_is_canon. reflexivity.
    + simpl. by destruct (String.eqb (term_type t) "Open").
  - intros Hopen. unfold DP._derive_term_risk_fields. simpl.
    by rewrite Hopen.
  - intros Hterm. apply String.eqb_neq in Hterm.
    unfold DP._derive_term_risk_fields. simpl. by rewrite Hterm.
Qed.

(** ** Credit fields *)

(** X4.  The credit score, the credit-adjusted exposure and the two
    stress-adjusted scores of a trade are NaN exactly when its rating is not
    a key of the weight table; for a rating that is a key, the credit score
    is its weight divided by 100. *)
Theorem credit_fields_nan_iff_unmapped (cfg : Config) (t : Trade) :
  let r := DP.derive_row cfg t in
  let unmapped := rating_weights cfg !! counterparty_rating t = None in
  (is_nan (DP.credit_risk_score (DP.credit r)) = true <-> unmapped) /\
  (is_nan (DP.credit_adjusted_exposure (DP.credit r)) = true <-> unmapped) /\
  (is_nan (DP.mild_stress_risk_score (DP.stress r)) = true <-> unmapped) /\
  (is_nan (DP.severe_stress_risk_score (DP.stress r)) = true <-> unmapped) /\
  (forall w : Qc,
      rating_weights cfg !! counterparty_rating t = Some w ->
      DP.credit_risk_score (DP.credit r) = Fin (w / Q2Qc (100 # 1))%Qc).
Proof.
  intros r unmapped. subst r unmapped.
  unfold DP.derive_row, DP._derive_stress_testing_fields, DP._derive_credit_risk_fields,
    DP.series_map.
  cbn [DP.credit DP.stress DP.credit_risk_score DP.credit_adjusted_exposure
       DP.mild_stress_risk_score DP.severe_stress_risk_score].
  destruct (rating_weights cfg !! counterparty_rating t) as [w|]; simpl.
  - unfold clip_upper.
    repeat match goal with |- context [if ?c then _ else _] => destruct c end;
      simpl; repeat split; try done.
    all: by intros ? [= ->].
  - repeat split; try done.
Qed.

(** X6.  For 0/1 flags the operational score lies between 0 and 1, and it
    is 0 exactly for a centrally cleared trade without wrong-way and
    cross-currency risk. *)
Theorem operational_score_unit_interval (t : Trade) :
  wrong_way_risk_flag t = 0%Qc \/ wrong_way_risk_flag t = 1%Qc ->
  cross_ccy_flag t = 0%Qc \/ cross_ccy_flag t = 1%Qc ->
  ccp_cleared_flag t = 0%Qc \/ ccp_cleared_flag t = 1%Qc ->
  let score := DP.operational_risk_score (DP._derive_operational_risk_fields t) in
  (0 # 1 <=? score)%num = true /\
  (score <=? 1 # 1)%num = true /\
  ((score =? 0 # 1)%num = true <->
   wrong_way_risk_flag t = 0%Qc /\ cross_ccy_flag t = 0%Qc /\ ccp_cleared_flag t = 1%Qc).
Proof.
  intros [Hw|Hw] [Hc|Hc] [Hp|Hp] score; subst score;
    unfold DP._derive_operational_risk_fields; cbn [DP.operational_risk_score];
    rewrite Hw, Hc, Hp;
    (split; [vm_compute; reflexivity|]); (split; [vm_compute; reflexivity|]);
    (split; [intros H; vm_compute in H; try discriminate; repeat split
            |intros (A & B & C); try discriminate; vm_compute; reflexivity]).
Qed.

Lemma operational_score_unit_interval_witness :
  let t := sample_trade "Dealer" "BBB" (qc 50 1) in
  (wrong_way_risk_flag t = 0%Qc \/ wrong_way_risk_flag t = 1%Qc) /\
  (cross_ccy_flag t = 0%Qc \/ cross_ccy_flag t = 1%Qc) /\
  (ccp_cleared_flag t = 0%Qc \/ ccp_cleared_flag t = 1%Qc) /\
  (DP.operational_risk_score (DP._derive_operational_risk_fields t) <=? 1 # 1)%num = true.
Proof.
  intros t.
  assert (Hw : wrong_way_risk_flag t = 0%Qc \/ wrong_way_risk_flag t = 1%Qc)
    by (left; reflexivity).
  assert (Hc : cross_ccy_flag t = 0%Qc \/ cross_ccy_flag t = 1%Qc)
    by (left; reflexivity).
  assert (Hp : ccp_cleared_flag t = 0%Qc \/ ccp_cleared_flag t = 1%Qc)
    by (right; reflexivity).
  split; [exact Hw|]. split; [exact Hc|]. split; [exact Hp|].
  exact (proj1 (proj2 (operational_score_unit_interval t Hw Hc Hp))).
Defined.

(** ** Grouping *)

Section StringOrder.

Lemma ascii_compare_refl (a : Ascii.ascii) : Ascii.compare a a = Eq.
Proof. apply N.compare_refl. Qed.

Lemma ascii_compare_lt_trans (a b c : Ascii.ascii) :
  Ascii.compare a b = Lt -> Ascii.compare b c = Lt -> Ascii.compare a c = Lt.
Proof. unfold Ascii.compare. rewrite !N.compare_lt_iff. apply N.lt_trans. Qed.

Lemma str_lt_trans (a b c : string) : str_lt a b -> str_lt b c -> str_lt a c.
Proof.
  unfold str_lt. revert b c.
  induction a as [|x a IH]; intros [|y b] [|z c]; simpl; try done.
  destruct (Ascii.compare x y) eqn:Exy; try done;
    destruct (Ascii.compare y z) eqn:Eyz; try done.
  - apply Ascii.compare_eq_iff in Exy, Eyz. subst.
    rewrite ascii_compare_refl. apply IH.
  - apply Ascii.compare_eq_iff in Exy. subst. by rewrite Eyz.
  - apply Ascii.compare_eq_iff in Eyz. subst. by rewrite Exy.
  - by rewrite (ascii_compare_lt_trans _ _ _ Exy Eyz).
Qed.

Lemma string_compare_refl (a : string) : String.compare a a = Eq.
Proof. induction a as [|x a IH]; simpl; [done|]. by rewrite ascii_compare_refl. Qed.

Lemma str_lt_irrefl (a : string) : ~ str_lt a a.
Proof. unfold str_lt. by rewrite string_compare_refl. Qed.

Lemma string_compare_gt_lt (a b : string) : String.compare a b = Gt -> str_lt b a.
Proof. unfold str_lt. rewrite (String.compare_antisym a b). by destruct (String.compare b a). Qed.

Lemma strongly_sorted_not_in (k : string) (ks : list string) :
  Forall (str_lt k) ks -> ~ In k ks.
Proof.
  intros Hall Hin. rewrite Forall_forall in Hall.
  apply (str_lt_irrefl k), Hall. by apply list_elem_of_In.
Qed.

Lemma strongly_sorted_nodup (ks : list string) :
  StronglySorted str_lt ks -> NoDup ks.
Proof.
  induction 1 as [|k ks _ IH Hall]; constructor; [|done].
  rewrite list_elem_of_In. by apply strongly_sorted_not_in.
Qed.

End StringOrder.

Section GroupBy.
Variable key : DP.Row -> string.

Lemma groupby_snoc (data : list DP.Row) (r : DP.Row) :
  groupby key (data ++ [r]) = group_add (key r) r (groupby key data).
Proof. unfold groupby. by rewrite fold_left_app. Qed.

Lemma group_add_keys (k k' : string) (r : DP.Row) gs :
  In k' (map fst (group_add k r gs)) <-> k' = k \/ In k' (map fst gs).
Proof.
  induction gs as [|[k0 rs] gs IH]; simpl; [intuition|].
  destruct (String.compare k k0) eqn:E; simpl.
  - apply String.compare_eq_iff in E. subst. intuition.
  - intuition.
  - rewrite IH. intuition.
Qed.

Lemma group_add_sorted (k : string) (r : DP.Row) gs :
  StronglySorted str_lt (map fst gs) ->
  StronglySorted str_lt (map fst (group_add k r gs)).
Proof.
  induction gs as [|[k0 rs] gs IH]; simpl; intros Hs.
  - repeat constructor.
  - apply StronglySorted_inv in Hs as [Hs Hall].
    destruct (String.compare k k0) eqn:E; simpl.
    + by constructor.
    + constructor; [by constructor|].
      constructor; [exact E|].
      eapply Forall_impl; [exact Hall|]. intros k1. by apply str_lt_trans.
    + constructor; [by apply IH|].
      rewrite Forall_forall. intros k1 Hk1%list_elem_of_In.
      apply group_add_keys in Hk1 as [->|Hk1].
      * by apply string_compare_gt_lt.
      * rewrite Forall_forall in Hall. by apply Hall, list_elem_of_In.
Qed.

Lemma assoc_rows_absent (k : string) gs :
  ~ In k (map fst gs) -> assoc_rows k gs = [].
Proof.
  induction gs as [|[k0 rs] gs IH]; simpl; [done|]. intros Hk.
  destruct (String.eqb_spec k0 k) as [->|_]; [tauto|].
  simpl. apply IH. tauto.
Qed.

Lemma assoc_rows_group_add (k k' : string) (r : DP.Row) gs :
  StronglySorted str_lt (map fst gs) ->
  assoc_rows k' (group_add k r gs)
  = assoc_rows k' gs ++ (if String.eqb k k' then [r] else []).
Proof.
  induction gs as [|[k0 rs] gs IH]; simpl; intros Hs.
  - by rewrite app_nil_r.
  - apply StronglySorted_inv in Hs as [Hs Hall].
    destruct (String.compare k k0) eqn:E; simpl.
    + apply String.compare_eq_iff in E. subst k0.
      destruct (String.eqb_spec k k') as [->|_].
      * rewrite (assoc_rows_absent k' gs) by by apply strongly_sorted_not_in.
        by rewrite !app_nil_r.
      * by rewrite app_nil_r.
    + destruct (String.eqb_spec k k') as [->|_]; simpl.
      * assert (Hk0 : String.eqb k0 k' = false).
        { apply String.eqb_neq. intros ->. by apply (str_lt_irrefl k'). }
        rewrite Hk0. simpl.
        rewrite (assoc_rows_absent k' gs); [done|].
        apply strongly_sorted_not_in.
        eapply Forall_impl; [exact Hall|]. intros k1. by apply str_lt_trans.
      * by rewrite app_nil_r.
    + rewrite (IH Hs). by rewrite app_assoc.
Qed.

Lemma assoc_rows_of_entry (k : string) (rs : list DP.Row) gs :
  NoDup (map fst gs) -> In (k, rs) gs -> assoc_rows k gs = rs.
Proof.
  induction gs as [|[k0 rs0] gs IH]; simpl; [done|].
  intros Hnd [Heq|Hin]; apply NoDup_cons in Hnd as [Hk0 Hnd].
  - injection Heq as -> ->. rewrite String.eqb_refl.
    rewrite (assoc_rows_absent k gs); [by rewrite app_nil_r|].
    by rewrite <- list_elem_of_In.
  - destruct (String.eqb_spec k0 k) as [->|_].
    + exfalso. apply Hk0, list_elem_of_In, in_map_iff. by exists (k, rs).
    + by apply IH.
Qed.

Lemma group_add_nonempty (k : string) (r : DP.Row) gs :
  Forall (fun g => snd g <> []) gs ->
  Forall (fun g => snd g <> []) (group_add k r gs).
Proof.
  induction gs as [|[k0 rs] gs IH]; simpl; intros Hall.
  - by repeat constructor.
  - apply Forall_cons in Hall as [H0 Hall].
    destruct (String.compare k k0); constructor; simpl; auto.
    by destruct rs.
Qed.

Lemma groupby_invariant (data : list DP.Row) :
  StronglySorted str_lt (map fst (groupby key data)) /\
  Forall (fun g => snd g <> []) (groupby key data) /\
  (forall k, assoc_rows k (groupby key data) = rows_with_key key k data) /\
  (forall k, In k (map fst (groupby key data)) <-> In k (map key data)).
Proof.
  induction data as [|r data (Hs & Hne & Hrows & Hkeys)] using rev_ind.
  - repeat split; try done; constructor.
  - rewrite groupby_snoc. split; [by apply group_add_sorted|].
    split; [by apply group_add_nonempty|]. split.
    + intros k. rewrite assoc_rows_group_add, Hrows by done.
      unfold rows_with_key. rewrite List.filter_app. simpl.
      by destruct (String.eqb (key r) k).
    + intros k. rewrite group_add_keys, Hkeys, map_app, in_app_iff. simpl.
      intuition.
Qed.

End GroupBy.

(** X7.  [groupby]: the keys of the groups are strictly ascending (so no
    key occurs twice), the keys are those of the rows, and the group of a
    key holds exactly the rows with that key, in their original order; no
    group is empty. *)
Theorem groupby_partitions (key : DP.Row -> string) (data : list DP.Row) :
  StronglySorted str_lt (map fst (groupby key data)) /\
  NoDup (map fst (groupby key data)) /\
  (forall k : string, In k (map fst (groupby key data)) <-> In k (map key data)) /\
  (forall (k : string) (rs : list DP.Row),
      In (k, rs) (groupby key data) <->
      rs = rows_with_key key k data /\ rs <> []).
Proof.
  destruct (groupby_invariant key data) as (Hs & Hne & Hrows & Hkeys).
  pose proof (strongly_sorted_nodup _ Hs) as Hnd.
  split; [exact Hs|]. split; [exact Hnd|]. split; [exact Hkeys|].
  intros k rs. split.
  - intros Hin. split.
    + by rewrite <- Hrows, (assoc_rows_of_entry k rs _ Hnd Hin).
    + rewrite Forall_forall in Hne. by apply (Hne (k, rs)), list_elem_of_In.
  - intros [-> Hrs].
    assert (Hk : In k (map fst (groupby key data))).
    { apply Hkeys. unfold rows_with_key in Hrs.
      destruct (List.filter _ data) as [|r rest] eqn:Hf; [done|].
      assert (Hr : In r (List.filter (fun r => String.eqb (key r) k) data))
        by (rewrite Hf; by left).
      apply filter_In in Hr as [Hr Hkey]. apply String.eqb_eq in Hkey.
      apply in_map_iff. by exists r. }
    apply in_map_iff in Hk as ([k0 rs0] & Heq & Hin). simpl in Heq. subst k0.
    by rewrite <- Hrows, (assoc_rows_of_entry k rs0 _ Hnd Hin).
Qed.

(** ** The profiles and the high-risk list after the loop over the groups *)

Lemma classic_rows (k : string) (data : list DP.Row) :
  rows_with_key row_counterparty k data = [] \/
  rows_with_key row_counterparty k data <> [].
Proof. destruct (rows_with_key row_counterparty k data); [by left | by right]. Qed.

Section Loop.

Lemma analyze_groups_lookup gs (a : CRA.t) (k : string) :
  NoDup (map fst gs) ->
  (forall rs, In (k, rs) gs ->
     CRA.counterparty_profiles (fold_left CRA.analyze_group gs a) !! k
     = Some (CRA._create_counterparty_profile (CRA.config a) k rs)) /\
  (~ In k (map fst gs) ->
     CRA.counterparty_profiles (fold_left CRA.analyze_group gs a) !! k
     = CRA.counterparty_profiles a !! k).
Proof.
  revert a. induction gs as [|[k0 rs0] gs IH]; intros a Hnd; [done|].
  cbn [map fst] in Hnd. apply NoDup_cons in Hnd as [Hk0 Hnd].
  rewrite list_elem_of_In in Hk0.
  destruct (IH (CRA.analyze_group a (k0, rs0)) Hnd) as [IH1 IH2].
  cbn [fold_left map fst]. split.
  - intros rs [Heq|Hin].
    + injection Heq as -> ->. rewrite (IH2 Hk0). apply lookup_insert_eq.
    + by rewrite (IH1 rs Hin).
  - intros Hk. rewrite IH2 by (simpl in Hk; tauto).
    apply lookup_insert_ne. simpl in Hk. tauto.
Qed.

Lemma analyze_groups_high_risk gs (a : CRA.t) :
  CRA.high_risk_counterparties (fold_left CRA.analyze_group gs a)
  = CRA.high_risk_counterparties a
    ++ map fst (List.filter
         (fun g => CRA._is_high_risk_counterparty (CRA.config a)
                     (CRA._create_counterparty_profile (CRA.config a) (fst g) (snd g)))
         gs).
Proof.
  revert a. induction gs as [|[k0 rs0] gs IH]; intros a; simpl.
  - by rewrite app_nil_r.
  - rewrite IH. simpl.
    destruct (CRA._is_high_risk_counterparty _ _); simpl; [|done].
    by rewrite <- app_assoc.
Qed.

(** What [analyze_counterparties] returns is read off the analyzer it
    leaves behind. *)
Lemma analyze_counterparties_final (a a' : CRA.t) (now : string)
    (data : list DP.Row) (r : AnalysisResults.t) :
  CRA.analyze_counterparties a now data = Ok (a', r) ->
  let looped := fold_left CRA.analyze_group (by_counterparty_type data) a in
  CRA.config a' = CRA.config a /\
  CRA.counterparty_profiles a'
  = CRA.update_concentration_ratio (col_sum (notional_col data))
      <$> CRA.counterparty_profiles looped /\
  CRA.high_risk_counterparties a' = CRA.high_risk_counterparties looped /\
  AnalysisResults.counterparty_profiles r = CRA.counterparty_profiles a' /\
  AnalysisResults.high_risk_counterparties r = CRA.high_risk_counterparties a' /\
  CRA.risk_aggregates a' = Some (AnalysisResults.portfolio_aggregates r) /\
  CRA._generate_risk_flags a' data = Ok (AnalysisResults.risk_flags r) /\
  CRA._generate_summary a' now data = Ok (AnalysisResults.summary r).
Proof.
  intros Hrun looped. subst looped. unfold CRA.analyze_counterparties in Hrun.
  destruct (CRA._calculate_portfolio_aggregates _ data) as [a1|e] eqn:Hcalc;
    [|discriminate].
  simpl in Hrun.
  destruct (CRA._generate_risk_flags a1 data) as [rf|e] eqn:Hrf; [|discriminate].
  simpl in Hrun.
  destruct (CRA.get_risk_aggregates a1 _) as [agg|e] eqn:Hagg; [|discriminate].
  simpl in Hrun.
  destruct (CRA._generate_summary a1 now data) as [sm|e] eqn:Hsm; [|discriminate].
  simpl in Hrun. injection Hrun as <- <-. simpl.
  unfold CRA.get_risk_aggregates in Hagg.
  destruct (CRA.risk_aggregates a1) as [agg'|] eqn:Hra; [|discriminate].
  injection Hagg as ->.
  unfold CRA._calculate_portfolio_aggregates in Hcalc.
  destruct (CRA._calculate_concentration_metrics data) as [cm|e]; [|discriminate].
  simpl in Hcalc. injection Hcalc as <-. simpl in *.
  rewrite analyze_groups_config. repeat split; try done.
Qed.

End Loop.

(** X8.  After an analysis that starts from a new analyzer, the profile
    dictionary has exactly the counterparty types of the data as keys, and
    the profile of a type is the one created from the rows of that type (in
    their order) with its concentration ratio rewritten against the total
    notional of the data. *)
Theorem profiles_of_new_analysis
    (cfg : Config) (now : string) (data : list DP.Row)
    (a' : CRA.t) (r : AnalysisResults.t) :
  CRA.analyze_counterparties (CRA.new cfg) now data = Ok (a', r) ->
  forall (k : string) (p : Profile.t),
    AnalysisResults.counterparty_profiles r !! k = Some p <->
    rows_with_key row_counterparty k data <> [] /\
    p = CRA.update_concentration_ratio (col_sum (notional_col data))
          (CRA._create_counterparty_profile cfg k
             (rows_with_key row_counterparty k data)).
Proof.
  intros Hrun k p.
  destruct (analyze_counterparties_final _ _ _ _ _ Hrun) as (_ & Hp & _ & -> & _).
  rewrite Hp, lookup_fmap. clear Hp Hrun.
  destruct (groupby_partitions row_counterparty data) as (_ & Hnd & Hkeys & Hgs).
  fold (by_counterparty_type data) in Hnd, Hkeys, Hgs.
  destruct (analyze_groups_lookup (by_counterparty_type data) (CRA.new cfg) k Hnd)
    as [Hin Hout].
  destruct (classic_rows k data) as [Hempty | Hrows].
  - assert (Hk : ~ In k (map fst (by_counterparty_type data))).
    { intros ([k0 rs] & Heq & Hin')%in_map_iff. simpl in Heq. subst k0.
      apply Hgs in Hin' as [-> Hne]. by apply Hne. }
    rewrite (Hout Hk). simpl. rewrite lookup_empty. simpl.
    split; [done | by intros [Hne _]].
  - assert (Hin' : In (k, rows_with_key row_counterparty k data)
                      (by_counterparty_type data)) by by apply Hgs.
    rewrite (Hin _ Hin'). simpl. split.
    + by intros [= <-].
    + by intros [_ ->].
Qed.

Lemma profiles_of_new_analysis_witness :
  exists (a' : CRA.t) (r : AnalysisResults.t),
    CRA.analyze_counterparties (CRA.new sample_config) "2024-01-01 00:00:00" sample_rows
    = Ok (a', r) /\
    forall (k : string) (p : Profile.t),
      AnalysisResults.counterparty_profiles r !! k = Some p <->
      rows_with_key row_counterparty k sample_rows <> [] /\
      p = CRA.update_concentration_ratio (col_sum (notional_col sample_rows))
            (CRA._create_counterparty_profile sample_config k
               (rows_with_key row_counterparty k sample_rows)).
Proof.
  assert (H : exists a' r,
    CRA.analyze_counterparties (CRA.new sample_config) "2024-01-01 00:00:00" sample_rows
    = Ok (a', r)) by (vm_compute; eauto).
  destruct H as (a' & r & H). exists a', r. split; [exact H|].
  exact (profiles_of_new_analysis sample_config _ sample_rows a' r H).
Defined.

(** ** The list of high-risk counterparties *)

Lemma nodup_filter_keys (f : string * list DP.Row -> bool) gs :
  NoDup (map fst gs) -> NoDup (map fst (List.filter f gs)).
Proof.
  induction gs as [|g gs IH]; simpl; [done|]. intros [Hg Hnd]%NoDup_cons.
  destruct (f g); simpl; [|by apply IH].
  apply NoDup_cons. split; [|by apply IH].
  rewrite list_elem_of_In in *. intros (g' & Heq & Hin)%in_map_iff.
  apply filter_In in Hin as [Hin _]. apply Hg, in_map_iff. by exists g'.
Qed.

(** X9.  After an analysis that starts from a new analyzer, the list of
    high-risk counterparties has no duplicates, every name in it is a key of
    the profile dictionary, and a counterparty type is in it exactly when
    the vote accepts its profile as it was created, that is, with the ratio
    of the group to its own total as concentration ratio. *)
Theorem high_risk_list_of_new_analysis
    (cfg : Config) (now : string) (data : list DP.Row)
    (a' : CRA.t) (r : AnalysisResults.t) :
  CRA.analyze_counterparties (CRA.new cfg) now data = Ok (a', r) ->
  NoDup (AnalysisResults.high_risk_counterparties r) /\
  (forall k : string,
      In k (AnalysisResults.high_risk_counterparties r) ->
      is_Some (AnalysisResults.counterparty_profiles r !! k)) /\
  (forall k : string,
      In k (AnalysisResults.high_risk_counterparties r) <->
      rows_with_key row_counterparty k data <> [] /\
      CRA._is_high_risk_counterparty cfg
        (CRA._create_counterparty_profile cfg k
           (rows_with_key row_counterparty k data)) = true).
Proof.
  intros Hrun.
  pose proof (profiles_of_new_analysis cfg now data a' r Hrun) as Hprof.
  destruct (analyze_counterparties_final _ _ _ _ _ Hrun)
    as (_ & _ & Hh & _ & -> & _).
  rewrite Hh, analyze_groups_high_risk. simpl. clear Hh Hrun.
  destruct (groupby_partitions row_counterparty data) as (_ & Hnd & _ & Hgs).
  fold (by_counterparty_type data) in Hnd, Hgs.
  assert (Hiff : forall k,
    In k (map fst (List.filter
      (fun g => CRA._is_high_risk_counterparty cfg
                  (CRA._create_counterparty_profile cfg (fst g) (snd g)))
      (by_counterparty_type data))) <->
    rows_with_key row_counterparty k data <> [] /\
    CRA._is_high_risk_counterparty cfg
      (CRA._create_counterparty_profile cfg k
         (rows_with_key row_counterparty k data)) = true).
  { intros k. rewrite in_map_iff. split.
    - intros ([k0 rs] & Heq & Hin). simpl in Heq. subst k0.
      apply filter_In in Hin as [Hin Hvote]. simpl in Hvote.
      apply Hgs in Hin as [-> Hne]. by split.
    - intros [Hne Hvote]. exists (k, rows_with_key row_counterparty k data).
      split; [done|]. apply filter_In. split; [by apply Hgs | exact Hvote]. }
  split; [by apply nodup_filter_keys|]. split; [|exact Hiff].
  intros k [Hne _]%Hiff. eexists. apply Hprof. by split.
Qed.

Lemma high_risk_list_of_new_analysis_witness :
  exists (a' : CRA.t) (r : AnalysisResults.t),
    CRA.analyze_counterparties (CRA.new sample_config) "2024-01-01 00:00:00" sample_rows
    = Ok (a', r) /\
    NoDup (AnalysisResults.high_risk_counterparties r).
Proof.
  assert (H : exists a' r,
    CRA.analyze_counterparties (CRA.new sample_config) "2024-01-01 00:00:00" sample_rows
    = Ok (a', r)) by (vm_compute; eauto).
  destruct H as (a' & r & H). exists a', r. split; [exact H|].
  exact (proj1 (high_risk_list_of_new_analysis sample_config _ sample_rows a' r H)).
Defined.

(** X10.  The list of high-risk counterparties is never reset: a second
    analysis of the same data on the same analyzer appends the high-risk
    counterparties once more, so the list of the second result is the list
    of the first twice over. *)
Theorem rerun_doubles_high_risk_list
    (cfg : Config) (now1 now2 : string) (data : list DP.Row)
    (a1 a2 : CRA.t) (r1 r2 : AnalysisResults.t) :
  CRA.analyze_counterparties (CRA.new cfg) now1 data = Ok (a1, r1) ->
  CRA.analyze_counterparties a1 now2 data = Ok (a2, r2) ->
  AnalysisResults.high_risk_counterparties r2
  = AnalysisResults.high_risk_counterparties r1
    ++ AnalysisResults.high_risk_counterparties r1.
Proof.
  intros H1 H2.
  destruct (analyze_counterparties_final _ _ _ _ _ H1)
    as (Hc1 & _ & Hh1 & _ & -> & _).
  destruct (analyze_counterparties_final _ _ _ _ _ H2)
    as (_ & _ & Hh2 & _ & -> & _).
  rewrite Hh2, analyze_groups_high_risk, Hc1.
  f_equal. by rewrite Hh1, analyze_groups_high_risk.
Qed.

Lemma rerun_doubles_high_risk_list_witness :
  exists (a1 a2 : CRA.t) (r1 r2 : AnalysisResults.t),
    CRA.analyze_counterparties (CRA.new sample_config) "2024-01-01 09:00:00"
      distressed_rows = Ok (a1, r1) /\
    CRA.analyze_counterparties a1 "2024-01-02 09:00:00" distressed_rows = Ok (a2, r2) /\
    AnalysisResults.high_risk_counterparties r1 = ["HedgeFund"] /\
    AnalysisResults.high_risk_counterparties r2 = ["HedgeFund"; "HedgeFund"].
Proof.
  assert (H1 : exists a1 r1,
    CRA.analyze_counterparties (CRA.new sample_config) "2024-01-01 09:00:00"
      distressed_rows = Ok (a1, r1) /\
    AnalysisResults.high_risk_counterparties r1 = ["HedgeFund"])
    by (vm_compute; eauto).
  destruct H1 as (a1 & r1 & H1 & Hh1).
  destruct (analyze_counterparties_ok distressed_rows) as (agg & cm & Hrun & _).
  destruct (Hrun a1 "2024-01-02 09:00:00") as (rf & sm & H2).
  eexists a1, _, r1, _. split; [exact H1|]. split; [exact H2|]. split; [exact Hh1|].
  rewrite (rerun_doubles_high_risk_list sample_config _ _ _ _ _ _ _ H1 H2).
  by rewrite Hh1.
Defined.

(** ** The details of the high-risk counterparties *)

Lemma details_rows_ok (m : gmap string Profile.t) (names : list string) :
  (forall k, In k names -> is_Some (m !! k)) ->
  exists rows : list Details.t,
    details_rows m names = Ok rows /\
    Forall2 (fun k d => exists p, m !! k = Some p /\ d = details_of p) names rows.
Proof.
  induction names as [|k names IH]; intros Hall; simpl.
  - exists []. by split.
  - destruct (Hall k) as [p Hp]; [by left|]. rewrite Hp.
    destruct IH as (rows & -> & HF); [intros k' Hk'; apply Hall; by right|].
    simpl. eexists. split; [reflexivity|]. constructor; [|done]. by exists p.
Qed.

Lemma details_rows_missing (m : gmap string Profile.t) (k : string)
    (before after : list string) :
  (forall k', In k' before -> is_Some (m !! k')) ->
  m !! k = None ->
  details_rows m (before ++ k :: after) = Raise (KeyError k).
Proof.
  induction before as [|k0 before IH]; intros Hall Hk; simpl.
  - by rewrite Hk.
  - destruct (Hall k0) as [p Hp]; [by left|]. rewrite Hp.
    rewrite IH; [done | | done]. intros k' Hk'. apply Hall. by right.
Qed.

(** X11.  [get_high_risk_counterparties_details] returns one row per entry
    of the high-risk list, in the order of the list, each the details of the
    profile stored under that name, when every name of the list is a key of
    the profile dictionary; it raises KeyError for the first name that is
    not.  After an analysis from a new analyzer it returns, and the rows
    name the high-risk counterparties. *)
Theorem high_risk_details_rows :
  (forall self : CRA.t,
      (forall k, In k (CRA.high_risk_counterparties self) ->
                 is_Some (CRA.counterparty_profiles self !! k)) ->
      exists rows : list Details.t,
        get_high_risk_counterparties_details self = Ok rows /\
        Forall2 (fun k d => exists p, CRA.counterparty_profiles self !! k = Some p /\
                                      d = details_of p)
                (CRA.high_risk_counterparties self) rows) /\
  (forall (self : CRA.t) (k : string) (before after : list string),
      CRA.high_risk_counterparties self = before ++ k :: after ->
      (forall k', In k' before -> is_Some (CRA.counterparty_profiles self !! k')) ->
      CRA.counterparty_profiles self !! k = None ->
      get_high_risk_counterparties_details self = Raise (KeyError k)) /\
  (forall (cfg : Config) (now : string) (data : list DP.Row)
          (a' : CRA.t) (r : AnalysisResults.t),
      CRA.analyze_counterparties (CRA.new cfg) now data = Ok (a', r) ->
      exists rows : list Details.t,
        get_high_risk_counterparties_details a' = Ok rows /\
        map Details.counterparty_type rows
        = AnalysisResults.high_risk_counterparties r).
Proof.
  assert (Hok : forall self : CRA.t,
      (forall k, In k (CRA.high_risk_counterparties self) ->
                 is_Some (CRA.counterparty_profiles self !! k)) ->
      exists rows : list Details.t,
        get_high_risk_counterparties_details self = Ok rows /\
        Forall2 (fun k d => exists p, CRA.counterparty_profiles self !! k = Some p /\
                                      d = details_of p)
                (CRA.high_risk_counterparties self) rows).
  { intros self Hall. unfold get_high_risk_counterparties_details.
    destruct (details_rows_ok _ _ Hall) as (rows & Hrows & HF).
    destruct (CRA.high_risk_counterparties self) eqn:E; [|by exists rows].
    exists []. split; [done | constructor]. }
  split; [exact Hok|]. split.
  - intros self k before after Hh Hbefore Hk.
    unfold get_high_risk_counterparties_details. rewrite Hh.
    rewrite (details_rows_missing _ _ _ _ Hbefore Hk). by destruct before.
  - intros cfg now data a' r Hrun.
    destruct (high_risk_list_of_new_analysis cfg now data a' r Hrun) as (_ & Hkeys & _).
    pose proof (profiles_of_new_analysis cfg now data a' r Hrun) as Hprof.
    destruct (analyze_counterparties_final _ _ _ _ _ Hrun)
      as (_ & _ & _ & Hp & Hh & _).
    rewrite Hp, Hh in *.
    destruct (Hok a' Hkeys) as (rows & Hrows & HF).
    exists rows. split; [exact Hrows|].
    assert (Hct : forall k p, CRA.counterparty_profiles a' !! k = Some p ->
                              Profile.counterparty_type p = k).
    { intros k p Hk. apply Hprof in Hk as [_ ->]. reflexivity. }
    clear - HF Hct.
    induction HF as [|k d ks ds (p & Hk & ->) _ IH]; simpl; [done|].
    rewrite IH. f_equal. by apply Hct.
Qed.

(** ** The summary and the aggregates *)

Lemma analysis_aggregates_fields (a a' : CRA.t) (now : string)
    (data : list DP.Row) (r : AnalysisResults.t) :
  CRA.analyze_counterparties a now data = Ok (a', r) ->
  let agg := AnalysisResults.portfolio_aggregates r in
  total_portfolio_exposure agg = col_sum (notional_col data) /\
  total_trades agg = length data /\
  unique_counterparties agg = nunique (map row_counterparty data) /\
  portfolio_average_risk_score agg = col_mean (composite_col data) /\
  portfolio_max_risk_score agg = col_max (composite_col data) /\
  high_risk_exposure agg = col_sum (notional_col (rows_above (7 # 10)%num data)) /\
  critical_risk_exposure agg = col_sum (notional_col (rows_above (9 # 10)%num data)) /\
  risk_distribution agg
  = value_counts (map (fun r => category_name (DP.risk_category (DP.composite r))) data) /\
  CRA._calculate_concentration_metrics data = Ok (counterparty_concentration agg) /\
  high_risk_exposure_pct agg
  = (if col_sum (notional_col data) >? 0 # 1
     then high_risk_exposure agg / col_sum (notional_col data) * (100 # 1)
     else 0 # 1)%num /\
  critical_risk_exposure_pct agg
  = (if col_sum (notional_col data) >? 0 # 1
     then critical_risk_exposure agg / col_sum (notional_col data) * (100 # 1)
     else 0 # 1)%num.
Proof.
  intros Hrun agg. subst agg. unfold CRA.analyze_counterparties in Hrun.
  destruct (CRA._calculate_portfolio_aggregates _ data) as [a1|e] eqn:Hcalc;
    [|discriminate].
  simpl in Hrun.
  destruct (CRA._generate_risk_flags a1 data) as [rf|e]; [|discriminate].
  simpl in Hrun.
  destruct (CRA.get_risk_aggregates a1 _) as [agg|e] eqn:Hagg; [|discriminate].
  simpl in Hrun.
  destruct (CRA._generate_summary a1 now data) as [sm|e]; [|discriminate].
  simpl in Hrun. injection Hrun as <- <-. simpl.
  unfold CRA._calculate_portfolio_aggregates in Hcalc.
  destruct (CRA._calculate_concentration_metrics data) as [cm|e]; [|discriminate].
  simpl in Hcalc. injection Hcalc as <-.
  unfold CRA.get_risk_aggregates in Hagg. simpl in Hagg. injection Hagg as <-.
  simpl. repeat split; reflexivity.
Qed.

Lemma generate_summary_fields (self : CRA.t) (now : string) (data : list DP.Row)
    (sm : Summary) :
  CRA._generate_summary self now data = Ok sm ->
  analysis_date sm = now /\
  total_counterparties sm = size (CRA.counterparty_profiles self) /\
  summary_high_risk_counterparties sm = length (CRA.high_risk_counterparties self) /\
  CRA._determine_portfolio_risk_level self = Ok (portfolio_risk_level sm).
Proof.
  unfold CRA._generate_summary. intros H.
  destruct (CRA._determine_portfolio_risk_level self) as [level|e]; [|discriminate].
  simpl in H. destruct (CRA.get_risk_aggregates self _) as [agg|e]; [|discriminate].
  simpl in H. by injection H as <-.
Qed.

Lemma analyze_groups_dom gs (a : CRA.t) :
  dom (CRA.counterparty_profiles (fold_left CRA.analyze_group gs a))
  = list_to_set (map fst gs) ∪ dom (CRA.counterparty_profiles a).
Proof.
  revert a. induction gs as [|[k rs] gs IH]; intros a; simpl.
  - by rewrite (left_id_L ∅ (∪)).
  - rewrite IH. simpl. rewrite dom_insert_L.
    by rewrite (assoc_L (∪)), (comm_L (∪) (list_to_set (map fst gs))).
Qed.

Lemma nunique_groupby (key : DP.Row -> string) (data : list DP.Row) :
  nunique (map key data) = length (groupby key data).
Proof.
  destruct (groupby_partitions key data) as (_ & Hnd & Hkeys & _).
  unfold nunique. rewrite <- (length_map fst (groupby key data)).
  apply Permutation_length, NoDup_Permutation.
  - apply NoDup_remove_dups.
  - exact Hnd.
  - intros k. rewrite elem_of_remove_dups, !list_elem_of_In. symmetry. apply Hkeys.
Qed.

(** X12.  After an analysis that starts from a new analyzer, the number of
    counterparties in the summary is the number of profiles, which is the
    number of distinct counterparty types of the data as the aggregates
    report it; the number of high-risk counterparties in the summary does
    not exceed it, and the date of the summary is the reading of the clock. *)
Theorem summary_counts_of_new_analysis
    (cfg : Config) (now : string) (data : list DP.Row)
    (a' : CRA.t) (r : AnalysisResults.t) :
  CRA.analyze_counterparties (CRA.new cfg) now data = Ok (a', r) ->
  let sm := AnalysisResults.summary r in
  analysis_date sm = now /\
  total_counterparties sm = size (AnalysisResults.counterparty_profiles r) /\
  total_counterparties sm
  = unique_counterparties (AnalysisResults.portfolio_aggregates r) /\
  summary_high_risk_counterparties sm
  = length (AnalysisResults.high_risk_counterparties r) /\
  (summary_high_risk_counterparties sm <= total_counterparties sm)%nat.
Proof.
  intros Hrun sm. subst sm.
  destruct (analysis_aggregates_fields _ _ _ _ _ Hrun) as (_ & _ & Hu & _).
  destruct (analyze_counterparties_final _ _ _ _ _ Hrun)
    as (_ & Hp & Hh & Hrp & Hrh & _ & _ & Hsm).
  destruct (generate_summary_fields _ _ _ _ Hsm) as (Hd & Ht & Hs & _).
  destruct (groupby_partitions row_counterparty data) as (_ & Hnd & _).
  fold (by_counterparty_type data) in Hnd.
  assert (Hsize : size (CRA.counterparty_profiles a')
                  = length (by_counterparty_type data)).
  { rewrite Hp, map_size_fmap, <- size_dom, analyze_groups_dom. simpl.
    rewrite dom_empty_L, (right_id_L ∅ (∪)), size_list_to_set by done.
    apply length_map. }
  rewrite Hrp, Hrh, Ht, Hs, Hu, Hsize.
  split; [exact Hd|]. split; [done|].
  split; [symmetry; apply (nunique_groupby row_counterparty)|]. split; [done|].
  rewrite Hh, analyze_groups_high_risk. simpl. rewrite length_map.
  apply filter_length_le.
Qed.

Lemma summary_counts_of_new_analysis_witness :
  exists (a' : CRA.t) (r : AnalysisResults.t),
    CRA.analyze_counterparties (CRA.new sample_config) "2024-01-01 09:00:00"
      distressed_rows = Ok (a', r) /\
    total_counterparties (AnalysisResults.summary r)
    = unique_counterparties (AnalysisResults.portfolio_aggregates r).
Proof.
  assert (H : exists a' r,
    CRA.analyze_counterparties (CRA.new sample_config) "2024-01-01 09:00:00"
      distressed_rows = Ok (a', r)) by (vm_compute; eauto).
  destruct H as (a' & r & H). exists a', r. split; [exact H|].
  exact (proj1 (proj2 (proj2
           (summary_counts_of_new_analysis sample_config _ distressed_rows a' r H)))).
Defined.

(** ** Portfolio flags *)

(** X13.  [_generate_risk_flags] raises KeyError on an analyzer whose
    aggregates have not been computed.  Otherwise it returns; every level
    has at most two flags and the recommendations are as many as the flags
    of the three levels together. *)
Theorem risk_flags_and_recommendations (self : CRA.t) (data : list DP.Row) :
  (CRA.risk_aggregates self = None ->
   exists key : string, CRA._generate_risk_flags self data = Raise (KeyError key)) /\
  (forall agg : Aggregates,
      CRA.risk_aggregates self = Some agg ->
      exists rf : RiskFlags,
        CRA._generate_risk_flags self data = Ok rf /\
        length (recommendations rf)
        = (length (critical_flags rf) + length (high_flags rf)
           + length (medium_flags rf))%nat /\
        (length (critical_flags rf) <= 2)%nat /\
        (length (high_flags rf) <= 2)%nat /\
        (length (medium_flags rf) <= 2)%nat).
Proof.
  unfold CRA._generate_risk_flags, CRA.get_risk_aggregates. split.
  - intros ->. cbn [bind]. eauto.
  - intros agg ->. cbn [bind]. eexists. split; [reflexivity|].
    repeat match goal with
    | |- context [CRA.add_critical ?c _ _ _] =>
        tryif is_var c then fail else (generalize c; intro)
    | |- context [CRA.add_high ?c _ _ _] =>
        tryif is_var c then fail else (generalize c; intro)
    | |- context [CRA.add_medium ?c _ _ _] =>
        tryif is_var c then fail else (generalize c; intro)
    end.
    repeat match goal with b : bool |- _ => destruct b end;
      cbv [CRA.add_critical CRA.add_high CRA.add_medium critical_flags high_flags
           medium_flags recommendations app length];
      lia.
Qed.

(** ** Distributions *)

Section ValueCounts.

Let step (m : gmap string nat) (k : string) : gmap string nat :=
  <[k := S (default 0%nat (m !! k))]> m.

Lemma value_counts_fold_lookup (c : list string) (m : gmap string nat) (k : string) :
  fold_left step c m !! k
  = match occurrences k c with
    | O => m !! k
    | S n => Some (S n + default 0 (m !! k))%nat
    end.
Proof.
  revert m. induction c as [|k0 c IH]; intros m; [done|].
  cbn [fold_left]. rewrite IH. unfold occurrences, step. simpl.
  destruct (String.eqb_spec k k0) as [<-|Hne]; simpl.
  - rewrite lookup_insert_eq. simpl.
    destruct (length (List.filter (String.eqb k) c)); f_equal; lia.
  - rewrite lookup_insert_ne by done. done.
Qed.

Lemma dict_total_insert_new (m : gmap string nat) (k : string) (n : nat) :
  m !! k = None -> dict_total (<[k := n]> m) = (n + dict_total m)%nat.
Proof.
  intros Hk. unfold dict_total.
  rewrite map_fold_insert_L; [done | | done]. intros. lia.
Qed.

Lemma dict_total_insert_old (m : gmap string nat) (k : string) (n n0 : nat) :
  m !! k = Some n0 ->
  (dict_total (<[k := n]> m) + n0 = n + dict_total m)%nat.
Proof.
  intros Hk.
  rewrite <- (insert_id m k n0 Hk) at 2.
  rewrite <- (insert_delete_eq m k n), <- (insert_delete_eq m k n0).
  rewrite !dict_total_insert_new by apply lookup_delete_eq. lia.
Qed.

Lemma dict_total_fold (c : list string) (m : gmap string nat) :
  dict_total (fold_left step c m) = (dict_total m + length c)%nat.
Proof.
  revert m. induction c as [|k c IH]; intros m; simpl; [lia|].
  rewrite IH. unfold step. destruct (m !! k) as [n0|] eqn:Hk; simpl.
  - pose proof (dict_total_insert_old m k (S n0) n0 Hk). lia.
  - rewrite dict_total_insert_new by done. lia.
Qed.

End ValueCounts.

(** X14.  [value_counts().to_dict()] maps every value that occurs in the
    column to the number of its occurrences and has no other key; its counts
    add up to the length of the column. *)
Theorem value_counts_counts (c : list string) :
  (forall k : string,
      value_counts c !! k
      = if Nat.eqb (occurrences k c) 0 then None else Some (occurrences k c)) /\
  dict_total (value_counts c) = length c.
Proof.
  split.
  - intros k. unfold value_counts. rewrite value_counts_fold_lookup, lookup_empty.
    destruct (occurrences k c); simpl; [done|]. f_equal. lia.
  - unfold value_counts. rewrite dict_total_fold. unfold dict_total.
    by rewrite map_fold_empty.
Qed.

(** ** Sorting and the concentration metrics *)

Section Sorting.
Local Open Scope num_scope.

Lemma fin_leb_total (x y : num) :
  is_fin x = true -> is_fin y = true -> (x <? y) = false -> (y <=? x) = true.
Proof.
  destruct x as [a| | |], y as [b| | |]; try done. simpl. intros _ _ H.
  apply qc_leb_le, Qcnot_lt_le. intros Hlt%qc_ltb_lt. congruence.
Qed.

Lemma ltb_leb_weak (x y : num) : (x <? y) = true -> (x <=? y) = true.
Proof.
  destruct x, y; simpl; try done.
  rewrite qc_ltb_lt, qc_leb_le. apply Qclt_le_weak.
Qed.

Lemma goes_after_fin (x y : num) : is_fin x = true -> goes_after x y = (x <? y).
Proof. destruct x; try done. intros _. unfold goes_after. simpl. by rewrite orb_false_r. Qed.

Lemma insert_desc_sorted (x : string * num) (l : list (string * num)) :
  is_fin (snd x) = true ->
  Forall (fun e => is_fin (snd e) = true) l ->
  StronglySorted desc l ->
  StronglySorted desc (insert_desc x l).
Proof.
  intros Hx Hfin Hs. induction Hs as [|y l Hs IH Hy]; simpl.
  - repeat constructor.
  - apply Forall_cons in Hfin as [Hyf Hfin].
    rewrite goes_after_fin by done.
    destruct (snd x <? snd y) eqn:Hlt.
    + constructor; [by apply IH|].
      rewrite (insert_desc_perm x l). constructor; [|done].
      by apply ltb_leb_weak.
    + constructor; [by constructor|]. constructor.
      * by apply fin_leb_total.
      * eapply Forall_impl; [exact Hy|]. intros z Hz. unfold desc in *.
        eapply leb_trans; [exact Hz|]. by apply fin_leb_total.
Qed.

Lemma sort_values_desc_fin (s : list (string * num)) :
  Forall (fun e => is_fin (snd e) = true) s ->
  Forall (fun e => is_fin (snd e) = true) (sort_values_desc s).
Proof. by rewrite sort_values_desc_perm. Qed.

End Sorting.

(** X16.  [sort_values(ascending=False)] on finite values: the result is a
    rearrangement of the series and every entry is at least as large as all
    the entries after it. *)
Theorem sort_values_desc_sorted (s : list (string * num)) :
  Forall (fun e => is_fin (snd e) = true) s ->
  sort_values_desc s ≡ₚ s /\ StronglySorted desc (sort_values_desc s).
Proof.
  intros Hfin. split; [apply sort_values_desc_perm|].
  induction s as [|x s IH]; simpl; [constructor|].
  apply Forall_cons in Hfin as [Hx Hfin].
  apply insert_desc_sorted; [done | by apply sort_values_desc_fin | by apply IH].
Qed.

Lemma sort_values_desc_sorted_witness :
  let s := [("Bank", (50 # 1)%num); ("Dealer", (60 # 1)%num); ("Fund", (50 # 1)%num)] in
  Forall (fun e => is_fin (snd e) = true) s /\
  sort_values_desc s ≡ₚ s /\ StronglySorted desc (sort_values_desc s).
Proof.
  intros s.
  assert (H : Forall (fun e => is_fin (snd e) = true) s) by (repeat constructor).
  split; [exact H | exact (sort_values_desc_sorted s H)].
Defined.

Section Metrics.
Local Open Scope num_scope.

(** The fields of the metrics in terms of the series of the exposures and
    of its sum, the total by which the method divides. *)
Lemma concentration_metrics_fields (data : list DP.Row) (cm : ConcentrationMetrics) :
  CRA._calculate_concentration_metrics data = Ok cm ->
  largest_counterparty cm
  = match counterparty_exposures data with
    | e :: _ => Some (fst e)
    | [] => None
    end /\
  (let total_exposure := col_sum (map snd (counterparty_exposures data)) in
   (total_exposure >? 0 # 1) = true ->
   top_5_concentration_pct cm
   = col_sum (map snd (take 5 (counterparty_exposures data)))
     / total_exposure * (100 # 1) /\
   herfindahl_hirschman_index cm
   = col_sum (map (fun e => (snd e / total_exposure) * (snd e / total_exposure))
                  (counterparty_exposures data)) /\
   exists e rest, counterparty_exposures data = e :: rest /\
     largest_counterparty_pct cm = snd e / total_exposure * (100 # 1)).
Proof.
  unfold CRA._calculate_concentration_metrics.
  fold (counterparty_exposures data).
  destruct (col_sum (map snd (counterparty_exposures data)) >? 0 # 1) eqn:Hpos.
  - destruct (counterparty_exposures data) as [|e rest] eqn:Hce.
    + vm_compute in Hpos. discriminate.
    + cbn [iloc0 bind]. intros [= <-]. cbn. split; [done|]. intros _.
      split; [done|]. split; [done|]. by exists e, rest.
  - cbn [bind]. intros [= <-]. cbn. split; [done|]. discriminate.
Qed.

(** A finite positive value divided by itself, as a percentage. *)
Lemma self_ratio (x : num) :
  is_fin x = true -> (x >? 0 # 1) = true ->
  x / x = 1 # 1 /\ x / x * (100 # 1) = 100 # 1.
Proof.
  destruct x as [q| | |]; try done. intros _ Hpos.
  unfold gtb in Hpos. simpl in Hpos. apply qc_ltb_lt in Hpos.
  assert (Hne : q <> 0%Qc).
  { intros E. rewrite E in Hpos. by apply (Qclt_not_eq 0%Qc 0%Qc). }
  assert (Hdiv : Fin q / Fin q = 1 # 1).
  { simpl. destruct (qc_eqb q 0) eqn:Hz; [by apply qc_eqb_eq in Hz|].
    f_equal. by field. }
  split; [exact Hdiv|]. rewrite Hdiv. simpl. f_equal; by apply Qc_is_canon.
Qed.

Lemma exposures_entries (data : list DP.Row) :
  Forall (fun e => snd e = Fin (rows_total (rows_with_key row_counterparty (fst e) data))
                   /\ rows_with_key row_counterparty (fst e) data <> [])
         (counterparty_exposures data).
Proof.
  unfold counterparty_exposures. rewrite sort_values_desc_perm.
  rewrite Forall_forall. intros e He%list_elem_of_In.
  apply in_map_iff in He as ([k rs] & <- & Hin). simpl.
  apply (groupby_partitions row_counterparty data) in Hin as [-> Hne].
  split; [apply notional_col_sum | done].
Qed.

Lemma exposures_length (data : list DP.Row) :
  length (counterparty_exposures data) = nunique (map row_counterparty data).
Proof.
  unfold counterparty_exposures.
  rewrite (Permutation_length (sort_values_desc_perm _)), length_map.
  symmetry. apply nunique_groupby.
Qed.

End Metrics.

(** X17.  With at most five counterparty types, the five largest exposures
    are all the exposures; when their sum, the total by which the method
    divides, is a finite positive number, the top-5 concentration is 100
    percent. *)
Theorem top_5_concentration_of_few
    (data : list DP.Row) (cm : ConcentrationMetrics) :
  CRA._calculate_concentration_metrics data = Ok cm ->
  (nunique (map row_counterparty data) <= 5)%nat ->
  is_fin (col_sum (map snd (counterparty_exposures data))) = true ->
  (col_sum (map snd (counterparty_exposures data)) >? 0 # 1)%num = true ->
  take 5 (counterparty_exposures data) = counterparty_exposures data /\
  top_5_concentration_pct cm = (100 # 1)%num.
Proof.
  intros Hcm Hfew Hfin Hgt.
  assert (Hall : take 5 (counterparty_exposures data) = counterparty_exposures data)
    by (apply firstn_all2; rewrite exposures_length; exact Hfew).
  split; [exact Hall|].
  destruct (concentration_metrics_fields data cm Hcm) as (_ & Hfields).
  destruct (Hfields Hgt) as (-> & _).
  rewrite Hall. by apply self_ratio.
Qed.

Lemma top_5_concentration_of_few_witness :
  (nunique (map row_counterparty distressed_rows) <= 5)%nat /\
  is_fin (col_sum (map snd (counterparty_exposures distressed_rows))) = true /\
  (col_sum (map snd (counterparty_exposures distressed_rows)) >? 0 # 1)%num = true /\
  exists cm : ConcentrationMetrics,
    CRA._calculate_concentration_metrics distressed_rows = Ok cm /\
    top_5_concentration_pct cm = (100 # 1)%num.
Proof.
  assert (Hfew : (nunique (map row_counterparty distressed_rows) <= 5)%nat)
    by (vm_compute; lia).
  assert (Hfin : is_fin (col_sum (map snd (counterparty_exposures distressed_rows)))
                 = true) by (vm_compute; reflexivity).
  assert (Hgt : (col_sum (map snd (counterparty_exposures distressed_rows)) >? 0 # 1)%num
                = true) by (vm_compute; reflexivity).
  split; [exact Hfew|]. split; [exact Hfin|]. split; [exact Hgt|].
  destruct (concentration_metrics_ok distressed_rows) as (cm & Hcm & _).
  exists cm. split; [exact Hcm|].
  exact (proj2 (top_5_concentration_of_few distressed_rows cm Hcm Hfew Hfin Hgt)).
Defined.

(** X18.  The counterparty that [_calculate_concentration_metrics] reports
    as the largest is a counterparty type of the data, and no counterparty
    type of the data has a larger exposure; data without rows has no largest
    counterparty. *)
Theorem largest_counterparty_is_maximal
    (data : list DP.Row) (cm : ConcentrationMetrics) :
  CRA._calculate_concentration_metrics data = Ok cm ->
  (data = [] -> largest_counterparty cm = None) /\
  (forall k : string,
      largest_counterparty cm = Some k ->
      In k (map row_counterparty data) /\
      forall k' : string,
        In k' (map row_counterparty data) ->
        (rows_total (rows_with_key row_counterparty k' data)
         <= rows_total (rows_with_key row_counterparty k data))%Qc).
Proof.
  intros Hcm. destruct (concentration_metrics_fields data cm Hcm) as (Hl & _).
  split.
  - intros ->. by rewrite Hl.
  - intros k Hk. rewrite Hl in Hk.
    destruct (counterparty_exposures data) as [|e rest] eqn:Hce; [done|].
    injection Hk as Hk.
    pose proof (exposures_entries data) as Hent. rewrite Hce in Hent.
    destruct (groupby_partitions row_counterparty data) as (_ & _ & Hkeys & Hgs).
    fold (by_counterparty_type data) in Hkeys, Hgs.
    assert (Hsorted : StronglySorted desc (e :: rest)).
    { rewrite <- Hce. unfold counterparty_exposures.
      apply sort_values_desc_sorted.
      rewrite Forall_forall. intros x Hx%list_elem_of_In.
      apply in_map_iff in Hx as (g & <- & _). simpl. by rewrite notional_col_sum. }
    assert (Hperm : e :: rest ≡ₚ
              map (fun g => (fst g, col_sum (notional_col (snd g))))
                  (by_counterparty_type data)).
    { rewrite <- Hce. apply sort_values_desc_perm. }
    apply Forall_cons in Hent as [[He Hne] Hrest]. rewrite Hk in He, Hne.
    split.
    + apply Hkeys, in_map_iff.
      exists (k, rows_with_key row_counterparty k data). split; [done|].
      by apply Hgs.
    + intros k' Hk'. apply Hkeys in Hk'.
      apply in_map_iff in Hk' as ([k0 rs] & Heq & Hin). simpl in Heq. subst k0.
      assert (Hin' : In (k', col_sum (notional_col rs)) (e :: rest)).
      { apply list_elem_of_In. rewrite Hperm. apply list_elem_of_In, in_map_iff.
        by exists (k', rs). }
      apply Hgs in Hin as [-> _]. rewrite notional_col_sum in Hin'.
      destruct Hin' as [Heq|Hin'].
      * rewrite Heq in Hk. simpl in Hk. subst k'. apply Qcle_refl.
      * apply StronglySorted_inv in Hsorted as [_ Hall].
        rewrite Forall_forall in Hall.
        apply list_elem_of_In, Hall in Hin'. unfold desc in Hin'.
        rewrite He in Hin'. simpl in Hin'. by apply qc_leb_le.
Qed.

Lemma largest_counterparty_is_maximal_witness :
  exists cm : ConcentrationMetrics,
    CRA._calculate_concentration_metrics distressed_rows = Ok cm /\
    largest_counterparty cm = Some "HedgeFund" /\
    In "HedgeFund" (map row_counterparty distressed_rows).
Proof.
  assert (H : exists cm,
    CRA._calculate_concentration_metrics distressed_rows = Ok cm /\
    largest_counterparty cm = Some "HedgeFund") by (vm_compute; eauto).
  destruct H as (cm & Hcm & Hl). exists cm. split; [exact Hcm|]. split; [exact Hl|].
  exact (proj1 (proj2 (largest_counterparty_is_maximal distressed_rows cm Hcm)
                  "HedgeFund" Hl)).
Defined.

(** X19.  With a single counterparty type there is one exposure; when the
    total by which the method divides is a finite positive number, the
    Herfindahl-Hirschman index is 1 and the share of the largest
    counterparty is 100 percent. *)
Theorem single_counterparty_concentration
    (data : list DP.Row) (cm : ConcentrationMetrics) :
  CRA._calculate_concentration_metrics data = Ok cm ->
  nunique (map row_counterparty data) = 1%nat ->
  is_fin (col_sum (map snd (counterparty_exposures data))) = true ->
  (col_sum (map snd (counterparty_exposures data)) >? 0 # 1)%num = true ->
  herfindahl_hirschman_index cm = (1 # 1)%num /\
  largest_counterparty_pct cm = (100 # 1)%num.
Proof.
  intros Hcm Hone Hfin Hgt.
  destruct (concentration_metrics_fields data cm Hcm) as (_ & Hfields).
  destruct (Hfields Hgt) as (_ & -> & e & rest & Hce & ->).
  pose proof (exposures_length data) as Hlen. rewrite Hce, Hone in Hlen.
  destruct rest; [|discriminate].
  rewrite Hce in *. cbn [map] in *.
  assert (Hsum : col_sum [snd e] = snd e).
  { destruct (snd e) as [q| | |]; try done.
    unfold col_sum. rewrite filter_cons_True by done. simpl.
    f_equal. ring. }
  rewrite Hsum in *.
  destruct (self_ratio (snd e) Hfin Hgt) as (Hone' & Hpct).
  split; [|exact Hpct].
  rewrite Hone'. vm_compute. f_equal; by apply Qc_is_canon.
Qed.

Lemma single_counterparty_concentration_witness :
  nunique (map row_counterparty hedge_fund_rows) = 1%nat /\
  is_fin (col_sum (map snd (counterparty_exposures hedge_fund_rows))) = true /\
  (col_sum (map snd (counterparty_exposures hedge_fund_rows)) >? 0 # 1)%num = true /\
  exists cm : ConcentrationMetrics,
    CRA._calculate_concentration_metrics hedge_fund_rows = Ok cm /\
    herfindahl_hirschman_index cm = (1 # 1)%num /\
    largest_counterparty_pct cm = (100 # 1)%num.
Proof.
  assert (Hone : nunique (map row_counterparty hedge_fund_rows) = 1%nat)
    by (vm_compute; reflexivity).
  assert (Hfin : is_fin (col_sum (map snd (counterparty_exposures hedge_fund_rows)))
                 = true) by (vm_compute; reflexivity).
  assert (Hgt : (col_sum (map snd (counterparty_exposures hedge_fund_rows)) >? 0 # 1)%num
                = true) by (vm_compute; reflexivity).
  split; [exact Hone|]. split; [exact Hfin|]. split; [exact Hgt|].
  destruct (concentration_metrics_ok hedge_fund_rows) as (cm & Hcm & _).
  exists cm. split; [exact Hcm|].
  exact (single_counterparty_concentration hedge_fund_rows cm Hcm Hone Hfin Hgt).
Defined.

(** ** Every trade is counted in one profile *)

Section ProfileSums.
Local Open Scope num_scope.

Lemma group_sizes_group_add (k : string) (r : DP.Row) gs :
  sum_list_with (fun g : string * list DP.Row => length (snd g)) (group_add k r gs)
  = S (sum_list_with (fun g : string * list DP.Row => length (snd g)) gs).
Proof.
  induction gs as [|[k0 rs] gs IH]; simpl; [done|].
  destruct (String.compare k k0); simpl.
  - rewrite length_app. simpl. lia.
  - lia.
  - rewrite IH. lia.
Qed.

Lemma group_sizes_groupby (key : DP.Row -> string) (data : list DP.Row) :
  sum_list_with (fun g : string * list DP.Row => length (snd g)) (groupby key data)
  = length data.
Proof.
  induction data as [|r data IH] using rev_ind; [done|].
  rewrite groupby_snoc, group_sizes_group_add, IH, length_app. simpl. lia.
Qed.

(** The profiles of a new analysis, as a list: one per group. *)
Lemma profile_values_of_new_analysis
    (cfg : Config) (now : string) (data : list DP.Row)
    (a' : CRA.t) (r : AnalysisResults.t) :
  CRA.analyze_counterparties (CRA.new cfg) now data = Ok (a', r) ->
  profile_values (AnalysisResults.counterparty_profiles r)
  ≡ₚ map (fun g => CRA.update_concentration_ratio (col_sum (notional_col data))
                     (CRA._create_counterparty_profile cfg (fst g) (snd g)))
         (by_counterparty_type data).
Proof.
  intros Hrun.
  pose proof (profiles_of_new_analysis cfg now data a' r Hrun) as Hprof.
  destruct (groupby_partitions row_counterparty data) as (_ & Hnd & _ & Hgs).
  fold (by_counterparty_type data) in Hnd, Hgs.
  set (L := map (fun g => (fst g,
                   CRA.update_concentration_ratio (col_sum (notional_col data))
                     (CRA._create_counterparty_profile cfg (fst g) (snd g))))
                (by_counterparty_type data)).
  assert (HL1 : map fst L = map fst (by_counterparty_type data)).
  { unfold L. rewrite map_map. by apply map_ext. }
  assert (HndL : NoDup L.*1) by (change (L.*1) with (map fst L); by rewrite HL1).
  assert (Hmap : AnalysisResults.counterparty_profiles r = list_to_map L).
  { apply map_eq. intros k.
    destruct (list_to_map L !! k) as [p|] eqn:Hk.
    - apply elem_of_list_to_map in Hk; [|done].
      apply list_elem_of_In, in_map_iff in Hk as ([k0 rs] & [= <- <-] & Hin).
      apply Hprof. simpl. apply Hgs in Hin as [-> Hne]. by split.
    - apply not_elem_of_list_to_map in Hk.
      destruct (AnalysisResults.counterparty_profiles r !! k) as [p|] eqn:Hp; [|done].
      exfalso. apply Hk. apply Hprof in Hp as [Hne _].
      change (L.*1) with (map fst L). rewrite HL1.
      apply list_elem_of_In, in_map_iff.
      exists (k, rows_with_key row_counterparty k data). split; [done|].
      by apply Hgs. }
  unfold profile_values. rewrite Hmap, (map_to_list_to_map L HndL).
  unfold L. rewrite map_map. by simpl.
Qed.

End ProfileSums.

(** X20.  After an analysis that starts from a new analyzer, the trade
    counts of the profiles add up to the number of rows of the data: every
    trade is counted in exactly one profile. *)
Theorem profile_trade_counts_add_up
    (cfg : Config) (now : string) (data : list DP.Row)
    (a' : CRA.t) (r : AnalysisResults.t) :
  CRA.analyze_counterparties (CRA.new cfg) now data = Ok (a', r) ->
  sum_list_with Profile.trade_count
    (profile_values (AnalysisResults.counterparty_profiles r))
  = length data.
Proof.
  intros Hrun.
  pose proof (profile_values_of_new_analysis cfg now data a' r Hrun) as Hperm.
  rewrite Hperm. rewrite <- (group_sizes_groupby row_counterparty data).
  change (groupby row_counterparty data) with (by_counterparty_type data).
  clear Hperm. generalize (by_counterparty_type data). intros l.
  induction l as [|g l IH]; simpl; [done|]. by rewrite IH.
Qed.

Lemma profile_trade_counts_add_up_witness :
  exists (a' : CRA.t) (r : AnalysisResults.t),
    CRA.analyze_counterparties (CRA.new sample_config) "2024-01-01 09:00:00"
      sample_rows = Ok (a', r) /\
    sum_list_with Profile.trade_count
      (profile_values (AnalysisResults.counterparty_profiles r))
    = 3%nat.
Proof.
  assert (H : exists a' r,
    CRA.analyze_counterparties (CRA.new sample_config) "2024-01-01 09:00:00"
      sample_rows = Ok (a', r)) by (vm_compute; eauto).
  destruct H as (a' & r & H).
  exists a', r. split; [exact H|].
  exact (profile_trade_counts_add_up sample_config _ sample_rows a' r H).
Defined.

(** ** Empty data *)

(** X21.  An analysis of data without rows returns: there are no profiles
    and no high-risk counterparties, the totals and percentages are 0, the
    mean and the maximum of the composite score are NaN, there is no largest
    counterparty, no flag is raised and the portfolio risk level is LOW. *)
Theorem analysis_of_empty_data (cfg : Config) (now : string) :
  exists (a' : CRA.t) (r : AnalysisResults.t),
    CRA.analyze_counterparties (CRA.new cfg) now [] = Ok (a', r) /\
    AnalysisResults.counterparty_profiles r = ∅ /\
    AnalysisResults.high_risk_counterparties r = [] /\
    (let agg := AnalysisResults.portfolio_aggregates r in
     total_trades agg = 0%nat /\
     unique_counterparties agg = 0%nat /\
     total_portfolio_exposure agg = (0 # 1)%num /\
     portfolio_average_risk_score agg = NaN /\
     portfolio_max_risk_score agg = NaN /\
     high_risk_exposure_pct agg = (0 # 1)%num /\
     critical_risk_exposure_pct agg = (0 # 1)%num /\
     risk_distribution agg = ∅ /\
     herfindahl_hirschman_index (counterparty_concentration agg) = (0 # 1)%num /\
     top_5_concentration_pct (counterparty_concentration agg) = (0 # 1)%num /\
     largest_counterparty (counterparty_concentration agg) = None) /\
    AnalysisResults.risk_flags r
    = {| critical_flags := []; high_flags := []; medium_flags := [];
         recommendations := [] |} /\
    portfolio_risk_level (AnalysisResults.summary r) = "LOW" /\
    total_counterparties (AnalysisResults.summary r) = 0%nat.
Proof.
  eexists _, _. split; [reflexivity|].
  cbn. repeat split; reflexivity.
Qed.

(** ** The protocol of the processor *)

(** X22.  A processor without loaded data raises ValueError on
    [derive_risk_fields]; one that has not derived yet raises ValueError on
    [get_processed_data] and on [get_data_summary], loaded or not.  After a
    derivation [get_processed_data] returns the rows that the derivation
    returned, one per input trade and in the order of the input, and the
    loaded data are unchanged. *)
Theorem processor_protocol (p : DP.t) :
  (DP.data p = None -> exists msg, DP.derive_risk_fields p = Raise (ValueError msg)) /\
  (DP.processed_data p = None ->
   (exists msg, DP.get_processed_data p = Raise (ValueError msg)) /\
   (exists msg, get_data_summary p = Raise (ValueError msg))) /\
  (forall ts : list Trade,
      DP.data p = Some ts ->
      exists (p' : DP.t) (rows : list DP.Row),
        DP.derive_risk_fields p = Ok (p', rows) /\
        DP.get_processed_data p' = Ok rows /\
        DP.data p' = Some ts /\
        map DP.trade rows = ts).
Proof.
  split; [|split].
  - intros H. unfold DP.derive_risk_fields. rewrite H. eauto.
  - intros H. unfold DP.get_processed_data, get_data_summary. rewrite H. eauto.
  - intros ts H. unfold DP.derive_risk_fields. rewrite H.
    eexists _, _. split; [reflexivity|]. split; [reflexivity|]. split; [done|].
    rewrite map_map. simpl. apply map_id.
Qed.

(** X23.  After a run of the pipeline, the summary of the processor agrees
    with the aggregates of the analysis on the number of trades, the total
    notional, the number of counterparty types, the distribution of the
    risk categories and the mean composite score; its counts of critical-
    and high-risk trades are ordered and bounded by the number of trades,
    and the counts of its distribution add up to the number of trades. *)
Theorem data_summary_agrees_with_aggregates
    (p p' : DP.t) (a a' : CRA.t) (now : string) (r : AnalysisResults.t) :
  run_pipeline p a now = Ok (p', a', r) ->
  exists sm : DataSummary.t,
    get_data_summary p' = Ok sm /\
    (let agg := AnalysisResults.portfolio_aggregates r in
     DataSummary.total_trades sm = total_trades agg /\
     DataSummary.total_notional sm = total_portfolio_exposure agg /\
     DataSummary.unique_counterparties sm = unique_counterparties agg /\
     DataSummary.risk_distribution sm = risk_distribution agg /\
     DataSummary.average_risk_score sm = portfolio_average_risk_score agg) /\
    (DataSummary.critical_risk_trades sm <= DataSummary.high_risk_trades sm)%nat /\
    (DataSummary.high_risk_trades sm <= DataSummary.total_trades sm)%nat /\
    dict_total (DataSummary.risk_distribution sm) = DataSummary.total_trades sm.
Proof.
  unfold run_pipeline, DP.derive_risk_fields. intros Hrun.
  destruct (DP.data p) as [ts|]; [|discriminate]. cbn [bind fst snd] in Hrun.
  set (rows := map (DP.derive_row (DP.config p)) ts) in *.
  destruct (CRA.analyze_counterparties a now rows) as [[a1 r1]|e] eqn:Han;
    [|discriminate].
  cbn [bind fst snd] in Hrun. injection Hrun as <- <- <-.
  destruct (analysis_aggregates_fields _ _ _ _ _ Han)
    as (Ht & Hn & Hu & Havg & _ & _ & _ & Hd & _).
  unfold get_data_summary. cbn [DP.processed_data].
  eexists. split; [reflexivity|].
  cbn [DataSummary.total_trades DataSummary.total_notional
       DataSummary.unique_counterparties DataSummary.risk_distribution
       DataSummary.average_risk_score DataSummary.high_risk_trades
       DataSummary.critical_risk_trades].
  rewrite Ht, Hn, Hu, Havg, Hd.
  split; [by repeat split|].
  destruct (risk_counts_ordered (composite_col rows)) as [H1 H2].
  split; [exact H1|]. split.
  - unfold composite_col in H2 at 2. by rewrite length_map in H2.
  - destruct (value_counts_counts
                (map (fun r => category_name (DP.risk_category (DP.composite r))) rows))
      as [_ Hsum].
    by rewrite Hsum, length_map.
Qed.

Lemma data_summary_agrees_with_aggregates_witness :
  exists (p' : DP.t) (a' : CRA.t) (r : AnalysisResults.t) (sm : DataSummary.t),
    run_pipeline sample_processor (CRA.new sample_config) "2024-01-01 09:00:00"
    = Ok (p', a', r) /\
    get_data_summary p' = Ok sm /\
    DataSummary.total_trades sm = total_trades (AnalysisResults.portfolio_aggregates r).
Proof.
  assert (H : exists p' a' r,
    run_pipeline sample_processor (CRA.new sample_config) "2024-01-01 09:00:00"
    = Ok (p', a', r)) by (vm_compute; eauto).
  destruct H as (p' & a' & r & H).
  destruct (data_summary_agrees_with_aggregates _ _ _ _ _ _ H)
    as (sm & Hsm & (Ht & _) & _).
  exists p', a', r, sm. split; [exact H|]. split; [exact Hsm | exact Ht].
Defined.
